(** * Blogicum: the view layer of [blog/views.py]

    A shallow embedding of the views of the blog application and of the
    parts of Django they run on (model lookups, the access mixins, the
    generic display and editing views), followed by the properties of the
    views: who may change what, who sees what, and which requests end in
    404. *)

From Stdlib Require Import List String ZArith Bool PeanoNat Lia.
Import ListNotations.
Local Open Scope string_scope.
Local Open Scope list_scope.
Local Open Scope nat_scope.

(** ** Exceptions raised inside a view *)

Inductive Exc : Type :=
| Http404
| PermissionDenied
| MultipleObjectsReturned
| ValueError.

Inductive Result (A : Type) : Type :=
| Ok (a : A)
| Raise (e : Exc).

Arguments Ok {A} a.
Arguments Raise {A} e.

Definition bind {A B : Type} (m : Result A) (k : A -> Result B) : Result B :=
  match m with
  | Ok a => k a
  | Raise e => Raise e
  end.

Notation "x <- m ;; k" := (bind m (fun x => k))
  (at level 100, m at next level, right associativity).

(** ** Data model *)

(** Modelled from the spec: [blog/models.py] is not in src/.  The records
    carry the fields section 3 of the specification lists for each entity;
    a reference to another record is the primary key of that record. *)
Record User : Type := {
  user_pk : nat;
  username : string
}.

Record Category : Type := {
  category_pk : nat;
  slug : string;
  category_is_published : bool
}.

Record Post : Type := {
  post_pk : nat;
  title : string;
  text : string;
  post_author : nat;
  post_category : nat;
  pub_date : Z;
  post_is_published : bool
}.

Record Comment : Type := {
  comment_pk : nat;
  comment_text : string;
  comment_author : nat;
  comment_post : nat;
  comment_is_published : bool;
  created_at : Z
}.

(** The tables behind [User.objects], [Category.objects], [Post.objects]
    and [Comment.objects], rows in insertion order. *)
Record DB : Type := {
  User_objects : list User;
  Category_objects : list Category;
  Post_objects : list Post;
  Comment_objects : list Comment
}.

(** Primary keys are unique within a table, and so is [User.username]. *)
Definition primary_keys_unique (db : DB) : Prop :=
  NoDup (map post_pk (Post_objects db)).

Definition usernames_unique (db : DB) : Prop :=
  NoDup (map username (User_objects db)).

(** ** Requests and responses *)

Inductive RequestUser : Type :=
| AnonymousUser
| LoggedIn (u : User).

Definition is_authenticated (u : RequestUser) : bool :=
  match u with
  | AnonymousUser => false
  | LoggedIn _ => true
  end.

(** [View.http_method_names]. *)
Inductive Method : Type :=
  GET | POST | PUT | PATCH | DELETE | HEAD | OPTIONS | TRACE.

(** [self.kwargs]: what the URL patterns capture. *)
Record Kwargs : Type := {
  post_id : nat;
  comment_id : nat;
  category_slug : string;
  username_kwarg : string
}.

Record Request : Type := {
  user : RequestUser;
  method : Method;
  kwargs : Kwargs;
  page : nat            (* the [page] query parameter, 1 when absent *)
}.

(** A row of a queryset built by [get_post_queryset]: the post and, when
    asked for, its [comment_count] annotation. *)
Record PostRow : Type := {
  row_post : Post;
  comment_count : option nat
}.

Inductive Url : Type :=
| url_post_detail (post_id : nat)         (* reverse("blog:post_detail") *)
| url_profile (username : string)         (* reverse("blog:profile") *)
| url_login                               (* settings.LOGIN_URL *)
| url_absolute (pk : nat).                (* obj.get_absolute_url() *)

Inductive Context : Type :=
| detail_context (object : Post) (comments : list Comment)
| category_context (object_list : list PostRow) (category : Category)
| profile_context (object_list : list PostRow) (profile : User)
    (comment_count__sum : option nat)
| form_context.

Inductive Response : Type :=
| TemplateResponse (template_name : string) (context : Context)
| HttpResponseRedirect (to : Url)
| HttpResponseOptions                     (* 200 with an Allow header *)
| HttpResponseNotFound                    (* 404 *)
| HttpResponseForbidden                   (* 403 *)
| HttpResponseNotAllowed                  (* 405 *)
| HttpResponseServerError.                (* 500 *)

(** What the request handler makes of an exception that leaves a view. *)
Definition response_for_exception (e : Exc) : Response :=
  match e with
  | Http404 => HttpResponseNotFound
  | PermissionDenied => HttpResponseForbidden
  | MultipleObjectsReturned => HttpResponseServerError
  | ValueError => HttpResponseServerError
  end.

(** ** The ORM as far as the views use it *)

(** [get_object_or_404]: [queryset.get] on the lookup, with
    [DoesNotExist] turned into [Http404]. *)
Definition get_object_or_404 {A : Type} (queryset : list A)
    (lookup : A -> bool) : Result A :=
  match filter lookup queryset with
  | [] => Raise Http404
  | [obj] => Ok obj
  | _ :: _ :: _ => Raise MultipleObjectsReturned
  end.

(** [author == request.user]: model instances are equal when their
    primary keys are; [AnonymousUser] equals no [User]. *)
Definition is_user (author : nat) (u : RequestUser) : bool :=
  match u with
  | AnonymousUser => false
  | LoggedIn usr => author =? user_pk usr
  end.

(** [bool(obj)] of a model instance. *)
Definition truthy {A : Type} (obj : A) : bool := true.

(** The related managers [user.posts], [category.posts], [post.comments]. *)
Definition user_posts (db : DB) (u : User) : list Post :=
  filter (fun p => post_author p =? user_pk u) (Post_objects db).

Definition category_posts (db : DB) (c : Category) : list Post :=
  filter (fun p => post_category p =? category_pk c) (Post_objects db).

Definition post_comments (db : DB) (p : Post) : list Comment :=
  filter (fun c => comment_post c =? post_pk p) (Comment_objects db).

(** [category__is_published=True]: the join on the post's category. *)
Definition category__is_published (db : DB) (p : Post) : bool :=
  existsb (fun c => (category_pk c =? post_category p)
                    && category_is_published c)
          (Category_objects db).

(** The public-visibility predicate of a post at time [now]. *)
Definition publicly_visible (db : DB) (now : Z) (p : Post) : bool :=
  post_is_published p && category__is_published db p
  && (pub_date p <=? now)%Z.

(** Modelled from the spec: [get_post_queryset] of [blog/utils.py], which
    is not in src/.  Section 4 describes it as a single predicate
    combining the category and publish flags and the date cutoff, with an
    optional comment-count annotation.  [manager] is the set of posts it
    starts from. *)
Definition get_post_queryset (db : DB) (now : Z) (manager : list Post)
    (filter_published annotate_comments : bool) : list PostRow :=
  let selected :=
    if filter_published then filter (publicly_visible db now) manager
    else manager in
  map (fun p =>
         {| row_post := p;
            comment_count :=
              if annotate_comments
              then Some (List.length (post_comments db p))
              else None |})
      selected.

(** [Sum] over a column: SQL gives NULL, and Django [None], over no rows. *)
Definition Sum (column : list nat) : option nat :=
  match column with
  | [] => None
  | _ :: _ => Some (list_sum column)
  end.

(** [Count("comments", filter=Q(comments__is_published=True))] for one
    post: the joined comment rows that pass the filter. *)
Definition Count_comments_published (db : DB) (p : Post) : nat :=
  List.length
    (filter (fun c => (comment_post c =? post_pk p) && comment_is_published c)
            (Comment_objects db)).

(** [Model.save] of an instance that has no primary key yet: INSERT, the
    database choosing the key. *)
Definition next_pk (pks : list nat) : nat := S (list_max pks).

(** [Model.save] of an instance that has a primary key: UPDATE of the row
    with this key, INSERT when there is none. *)
Definition save_row {A : Type} (pk : A -> nat) (obj : A) (table : list A)
    : list A :=
  if existsb (fun r => pk r =? pk obj) table
  then map (fun r => if pk r =? pk obj then obj else r) table
  else table ++ [obj].

Definition delete_row {A : Type} (pk : A -> nat) (obj : A) (table : list A)
    : list A :=
  filter (fun r => negb (pk r =? pk obj)) table.

Definition with_posts (db : DB) (posts : list Post) : DB :=
  {| User_objects := User_objects db;
     Category_objects := Category_objects db;
     Post_objects := posts;
     Comment_objects := Comment_objects db |}.

Definition with_comments (db : DB) (comments : list Comment) : DB :=
  {| User_objects := User_objects db;
     Category_objects := Category_objects db;
     Post_objects := Post_objects db;
     Comment_objects := comments |}.

Definition Post_insert (db : DB) (p : Post) : DB * Post :=
  let saved :=
    {| post_pk := next_pk (map post_pk (Post_objects db));
       title := title p; text := text p;
       post_author := post_author p; post_category := post_category p;
       pub_date := pub_date p; post_is_published := post_is_published p |} in
  (with_posts db (Post_objects db ++ [saved]), saved).

Definition Post_save (db : DB) (p : Post) : DB :=
  with_posts db (save_row post_pk p (Post_objects db)).

(** [post.delete()].  The comments that point to the post go with it:
    the [on_delete] of [Comment.post] is in [blog/models.py], and the
    cascade is what keeps every comment on an existing post. *)
Definition Post_delete (db : DB) (p : Post) : DB :=
  {| User_objects := User_objects db;
     Category_objects := Category_objects db;
     Post_objects := delete_row post_pk p (Post_objects db);
     Comment_objects :=
       filter (fun c => negb (comment_post c =? post_pk p))
              (Comment_objects db) |}.

Definition Comment_insert (db : DB) (c : Comment) : DB * Comment :=
  let saved :=
    {| comment_pk := next_pk (map comment_pk (Comment_objects db));
       comment_text := comment_text c;
       comment_author := comment_author c; comment_post := comment_post c;
       comment_is_published := comment_is_published c;
       created_at := created_at c |} in
  (with_comments db (Comment_objects db ++ [saved]), saved).

Definition Comment_save (db : DB) (c : Comment) : DB :=
  with_comments db (save_row comment_pk c (Comment_objects db)).

Definition Comment_delete (db : DB) (c : Comment) : DB :=
  with_comments db (delete_row comment_pk c (Comment_objects db)).

(** ** Forms *)

(** Modelled from the spec: [blog/forms.py] is not in src/.  A bound form
    carries the outcome of its validation and a value for each field of
    the record it edits; [pf_author] and [cf_author] are the author a
    request submits when the form exposes that field. *)
Record PostForm : Type := {
  pf_is_valid : bool;
  pf_title : string;
  pf_text : string;
  pf_category : nat;
  pf_pub_date : Z;
  pf_is_published : bool;
  pf_author : option nat
}.

Record CommentForm : Type := {
  cf_is_valid : bool;
  cf_text : string;
  cf_author : option nat
}.

(** [form.save(commit=False)]: the cleaned fields written on the form's
    instance, which is not saved. *)
Definition PostForm_save_commit_false (form : PostForm) (instance : Post)
    : Post :=
  {| post_pk := post_pk instance;
     title := pf_title form;
     text := pf_text form;
     post_author :=
       match pf_author form with
       | Some a => a
       | None => post_author instance
       end;
     post_category := pf_category form;
     pub_date := pf_pub_date form;
     post_is_published := pf_is_published form |}.

Definition CommentForm_save_commit_false (form : CommentForm)
    (instance : Comment) : Comment :=
  {| comment_pk := comment_pk instance;
     comment_text := cf_text form;
     comment_author :=
       match cf_author form with
       | Some a => a
       | None => comment_author instance
       end;
     comment_post := comment_post instance;
     comment_is_published := comment_is_published instance;
     created_at := created_at instance |}.

(** The instance a create view starts from: [Post()] and [Comment()].
    Key, author and post stay unset until the view or the database
    assigns them; the other fields hold their defaults ([created_at] is
    the time of creation). *)
Definition Post_new : Post :=
  {| post_pk := 0; title := ""; text := ""; post_author := 0;
     post_category := 0; pub_date := 0%Z; post_is_published := true |}.

Definition Comment_new (now : Z) : Comment :=
  {| comment_pk := 0; comment_text := ""; comment_author := 0;
     comment_post := 0; comment_is_published := true; created_at := now |}.

(** Modelled from the spec: [EditProfileForm] of [blog/forms.py], not in
    src/.  Section 3 gives a user a username and profile fields; the
    form carries the username a request submits when it exposes that
    field. *)
Record EditProfileForm : Type := {
  ef_is_valid : bool;
  ef_username : option string
}.

Definition EditProfileForm_save_commit_false (form : EditProfileForm)
    (instance : User) : User :=
  {| user_pk := user_pk instance;
     username :=
       match ef_username form with
       | Some name => name
       | None => username instance
       end |}.

Definition with_users (db : DB) (users : list User) : DB :=
  {| User_objects := users;
     Category_objects := Category_objects db;
     Post_objects := Post_objects db;
     Comment_objects := Comment_objects db |}.

Definition User_save (db : DB) (u : User) : DB :=
  with_users db (save_row user_pk u (User_objects db)).

(** ** Pagination *)

Definition paginate_by : nat := 10.

(** [Paginator.num_pages], with no orphans and an empty first page
    allowed. *)
Definition num_pages {A : Type} (object_list : list A) : nat :=
  Nat.max 1 ((List.length object_list + paginate_by - 1) / paginate_by).

(** [MultipleObjectMixin.paginate_queryset]: the slice of the requested
    page, [Http404] for a page that does not exist. *)
Definition paginate_queryset {A : Type} (request : Request)
    (queryset : list A) : Result (list A) :=
  if (1 <=? page request) && (page request <=? num_pages queryset)
  then Ok (firstn paginate_by
             (skipn ((page request - 1) * paginate_by) queryset))
  else Raise Http404.

(** ** Django's access mixins and generic views *)

(** [request.user.username]; [AnonymousUser] has the empty name. *)
Definition request_username (u : RequestUser) : string :=
  match u with
  | AnonymousUser => ""
  | LoggedIn usr => username usr
  end.

(** [AccessMixin.handle_no_permission]: 403 for a logged-in user, the
    login page for an anonymous one. *)
Definition AccessMixin_handle_no_permission (request : Request)
    : Result Response :=
  if is_authenticated (user request) then Raise PermissionDenied
  else Ok (HttpResponseRedirect url_login).

Definition LoginRequiredMixin_dispatch {R : Type} (request : Request)
    (handle_no_permission dispatch : Result R) : Result R :=
  if negb (is_authenticated (user request)) then handle_no_permission
  else dispatch.

Definition UserPassesTestMixin_dispatch {R : Type} (test_func : Result bool)
    (handle_no_permission dispatch : Result R) : Result R :=
  user_test_result <- test_func ;;
  if negb user_test_result then handle_no_permission else dispatch.

(** A response that leaves the database as it is. *)
Definition unchanged (db : DB) (response : Result Response)
    : Result (DB * Response) :=
  resp <- response ;; Ok (db, resp).

(** The outcome of a request: an exception becomes its error response.
    No view below writes before it raises, so the database of a failed
    request is the one it started with. *)
Definition respond (r : Result Response) : Response :=
  match r with
  | Ok resp => resp
  | Raise e => response_for_exception e
  end.

Definition commit (db : DB) (r : Result (DB * Response)) : DB * Response :=
  match r with
  | Ok out => out
  | Raise e => (db, response_for_exception e)
  end.

(** [View.dispatch]: the handler the view has for the request method,
    [http_method_not_allowed] when it has none.  A display view handles
    GET (and HEAD through it); a form view also POST and PUT; a delete
    view POST and DELETE; all of them OPTIONS.  [lift] turns a bare
    response into the result type of the view. *)
Definition display_dispatch {R : Type} (lift : Response -> R)
    (request : Request) (get : Result R) : Result R :=
  match method request with
  | GET | HEAD => get
  | OPTIONS => Ok (lift HttpResponseOptions)
  | POST | PUT | PATCH | DELETE | TRACE => Ok (lift HttpResponseNotAllowed)
  end.

Definition form_dispatch {R : Type} (lift : Response -> R)
    (request : Request) (get post : Result R) : Result R :=
  match method request with
  | GET | HEAD => get
  | POST | PUT => post
  | OPTIONS => Ok (lift HttpResponseOptions)
  | PATCH | DELETE | TRACE => Ok (lift HttpResponseNotAllowed)
  end.

Definition delete_dispatch {R : Type} (lift : Response -> R)
    (request : Request) (get delete : Result R) : Result R :=
  match method request with
  | GET | HEAD => get
  | POST | DELETE => delete
  | OPTIONS => Ok (lift HttpResponseOptions)
  | PUT | PATCH | TRACE => Ok (lift HttpResponseNotAllowed)
  end.

(** The part of [CommentMixin] that the comment views inherit.  The mixin
    lives in [blog/mixins.py], which is not in src/; the views are
    modelled over any implementation of it: the comment a request
    resolves to, the answer to a request that may not proceed (the
    mixin's own [handle_no_permission] or the one of [AccessMixin],
    whichever the class hierarchy puts first; it answers and writes
    nothing), and the address to go to after a change. *)
Class CommentMixin : Type := {
  CommentMixin_get_object : DB -> Request -> Result Comment;
  CommentMixin_handle_no_permission : Request -> Result Response;
  CommentMixin_get_success_url : Request -> Url
}.

(** ** The views *)

Section Views.

(** [timezone.now()] when the request is served, the default of
    [annotate_comments] in [get_post_queryset], and the comment mixin. *)
Context (now : Z) (annotate_comments_default : bool) {mixin : CommentMixin}.

(** *** PostDetailView *)

Definition PostDetailView_get_object (db : DB) (request : Request)
    : Result Post :=
  post <- get_object_or_404
            (get_post_queryset db now (Post_objects db) false false)
            (fun r => post_pk (row_post r) =? post_id (kwargs request)) ;;
  if negb (is_user (post_author (row_post post)) (user request)) then
    post <- get_object_or_404
              (get_post_queryset db now (Post_objects db) true false)
              (fun r => post_pk (row_post r) =? post_id (kwargs request)) ;;
    if negb (truthy post) then Raise Http404
    else Ok (row_post post)
  else Ok (row_post post).

Definition PostDetailView_get_context_data (db : DB) (object : Post)
    : Context :=
  detail_context object
    (filter (fun c => comment_is_published c) (post_comments db object)).

Definition PostDetailView_get (db : DB) (request : Request)
    : Result Response :=
  object <- PostDetailView_get_object db request ;;
  Ok (TemplateResponse "blog/detail.html"
        (PostDetailView_get_context_data db object)).

Definition PostDetailView (db : DB) (request : Request) : Response :=
  respond (display_dispatch id request (PostDetailView_get db request)).

(** *** CategoryPostListView *)

Definition CategoryPostListView_get_queryset (db : DB) (request : Request)
    : Result (list PostRow) :=
  category <- get_object_or_404 (Category_objects db)
                (fun c => (slug c =? category_slug (kwargs request))%string
                          && category_is_published c) ;;
  Ok (get_post_queryset db now (category_posts db category) true true).

Definition CategoryPostListView_get_context_data (db : DB)
    (request : Request) (object_list : list PostRow) : Result Context :=
  page_obj <- paginate_queryset request object_list ;;
  category <- get_object_or_404 (Category_objects db)
                (fun c => (slug c =? category_slug (kwargs request))%string
                          && category_is_published c) ;;
  Ok (category_context page_obj category).

Definition CategoryPostListView_get (db : DB) (request : Request)
    : Result Response :=
  object_list <- CategoryPostListView_get_queryset db request ;;
  context <- CategoryPostListView_get_context_data db request object_list ;;
  Ok (TemplateResponse "blog/category.html" context).

Definition CategoryPostListView (db : DB) (request : Request) : Response :=
  respond (display_dispatch id request (CategoryPostListView_get db request)).

(** *** ProfileView *)

Definition ProfileView_get_user (db : DB) (request : Request)
    : Result User :=
  get_object_or_404 (User_objects db)
    (fun u => (username u =? username_kwarg (kwargs request))%string).

Definition ProfileView_get_queryset (db : DB) (request : Request)
    : Result (list PostRow) :=
  user_ <- ProfileView_get_user db request ;;
  Ok (get_post_queryset db now (user_posts db user_)
        (negb (is_authenticated (user request))
         || negb (is_user (user_pk user_) (user request)))
        annotate_comments_default).

Definition ProfileView_get_context_data (db : DB) (request : Request)
    (object_list : list PostRow) : Result Context :=
  page_obj <- paginate_queryset request object_list ;;
  user_ <- ProfileView_get_user db request ;;
  Ok (profile_context page_obj user_
        (Sum (map (Count_comments_published db) (user_posts db user_)))).

Definition ProfileView_get (db : DB) (request : Request)
    : Result Response :=
  object_list <- ProfileView_get_queryset db request ;;
  context <- ProfileView_get_context_data db request object_list ;;
  Ok (TemplateResponse "blog/profile.html" context).

Definition ProfileView (db : DB) (request : Request) : Response :=
  respond (display_dispatch id request (ProfileView_get db request)).

(** *** CreatePostView *)

Definition Post_set_author (p : Post) (author : nat) : Post :=
  {| post_pk := post_pk p; title := title p; text := text p;
     post_author := author; post_category := post_category p;
     pub_date := pub_date p; post_is_published := post_is_published p |}.

Definition CreatePostView_form_valid (db : DB) (request : Request)
    (form : PostForm) : Result (DB * Response) :=
  let post := PostForm_save_commit_false form Post_new in
  match user request with
  | AnonymousUser => Raise ValueError
  | LoggedIn usr =>
      let post := Post_set_author post (user_pk usr) in
      let (db', _) := Post_insert db post in
      Ok (db', HttpResponseRedirect
                 (url_profile (request_username (user request))))
  end.

Definition CreatePostView_dispatch (db : DB) (request : Request)
    (form : PostForm) : Result (DB * Response) :=
  LoginRequiredMixin_dispatch request
    (unchanged db (AccessMixin_handle_no_permission request))
    (form_dispatch (pair db) request
       (Ok (db, TemplateResponse "blog/create.html" form_context))
       (if pf_is_valid form then CreatePostView_form_valid db request form
        else Ok (db, TemplateResponse "blog/create.html" form_context))).

Definition CreatePostView (db : DB) (request : Request) (form : PostForm)
    : DB * Response :=
  commit db (CreatePostView_dispatch db request form).

(** *** AuthorRequiredMixin *)

Definition AuthorRequiredMixin_test_func {A : Type} (get_object : Result A)
    (author : A -> nat) (request : Request) : Result bool :=
  obj <- get_object ;;
  Ok (is_user (author obj) (user request)).

(** *** EditPostView and DeletePostView *)

(** [SingleObjectMixin.get_object] with [model = Post] and
    [pk_url_kwarg = "post_id"]. *)
Definition Post_get_object (db : DB) (request : Request) : Result Post :=
  get_object_or_404 (Post_objects db)
    (fun p => post_pk p =? post_id (kwargs request)).

Definition EditPostView_handle_no_permission (request : Request)
    : Result Response :=
  Ok (HttpResponseRedirect (url_post_detail (post_id (kwargs request)))).

Definition EditPostView_dispatch (db : DB) (request : Request)
    (form : PostForm) : Result (DB * Response) :=
  LoginRequiredMixin_dispatch request
    (unchanged db (EditPostView_handle_no_permission request))
    (UserPassesTestMixin_dispatch
       (AuthorRequiredMixin_test_func (Post_get_object db request)
          post_author request)
       (unchanged db (EditPostView_handle_no_permission request))
       (form_dispatch (pair db) request
          (object <- Post_get_object db request ;;
           Ok (db, TemplateResponse "blog/create.html" form_context))
          (object <- Post_get_object db request ;;
           if pf_is_valid form then
             let object := PostForm_save_commit_false form object in
             Ok (Post_save db object,
                 HttpResponseRedirect (url_absolute (post_pk object)))
           else Ok (db, TemplateResponse "blog/create.html" form_context)))).

Definition EditPostView (db : DB) (request : Request) (form : PostForm)
    : DB * Response :=
  commit db (EditPostView_dispatch db request form).

Definition DeletePostView_get_success_url (request : Request) : Url :=
  url_profile (request_username (user request)).

Definition DeletePostView_dispatch (db : DB) (request : Request)
    : Result (DB * Response) :=
  LoginRequiredMixin_dispatch request
    (unchanged db (AccessMixin_handle_no_permission request))
    (UserPassesTestMixin_dispatch
       (AuthorRequiredMixin_test_func (Post_get_object db request)
          post_author request)
       (unchanged db (AccessMixin_handle_no_permission request))
       (delete_dispatch (pair db) request
          (object <- Post_get_object db request ;;
           Ok (db, TemplateResponse "blog/delete.html" form_context))
          (object <- Post_get_object db request ;;
           let success_url := DeletePostView_get_success_url request in
           Ok (Post_delete db object, HttpResponseRedirect success_url)))).

Definition DeletePostView (db : DB) (request : Request) : DB * Response :=
  commit db (DeletePostView_dispatch db request).

(** *** AddCommentView *)

Definition Comment_set_post (c : Comment) (post : nat) : Comment :=
  {| comment_pk := comment_pk c; comment_text := comment_text c;
     comment_author := comment_author c; comment_post := post;
     comment_is_published := comment_is_published c;
     created_at := created_at c |}.

Definition Comment_set_author (c : Comment) (author : nat) : Comment :=
  {| comment_pk := comment_pk c; comment_text := comment_text c;
     comment_author := author; comment_post := comment_post c;
     comment_is_published := comment_is_published c;
     created_at := created_at c |}.

Definition AddCommentView_get_success_url (request : Request) : Url :=
  url_post_detail (post_id (kwargs request)).

Definition AddCommentView_form_valid (db : DB) (request : Request)
    (form : CommentForm) : Result (DB * Response) :=
  post <- get_object_or_404 (Post_objects db)
            (fun p => post_pk p =? post_id (kwargs request)) ;;
  let comment := CommentForm_save_commit_false form (Comment_new now) in
  let comment := Comment_set_post comment (post_pk post) in
  match user request with
  | AnonymousUser => Raise ValueError
  | LoggedIn usr =>
      let comment := Comment_set_author comment (user_pk usr) in
      let (db', comment) := Comment_insert db comment in
      (* super().form_valid(form): form.save() on the saved instance *)
      let db'' := Comment_save db' comment in
      Ok (db'', HttpResponseRedirect (AddCommentView_get_success_url request))
  end.

Definition AddCommentView_dispatch (db : DB) (request : Request)
    (form : CommentForm) : Result (DB * Response) :=
  LoginRequiredMixin_dispatch request
    (unchanged db (AccessMixin_handle_no_permission request))
    (form_dispatch (pair db) request
       (Ok (db, TemplateResponse "blog/detail.html" form_context))
       (if cf_is_valid form then AddCommentView_form_valid db request form
        else Ok (db, TemplateResponse "blog/detail.html" form_context))).

Definition AddCommentView (db : DB) (request : Request) (form : CommentForm)
    : DB * Response :=
  commit db (AddCommentView_dispatch db request form).

(** *** EditCommentView and DeleteCommentView *)

Definition EditCommentView_dispatch (db : DB) (request : Request)
    (form : CommentForm) : Result (DB * Response) :=
  LoginRequiredMixin_dispatch request
    (unchanged db (CommentMixin_handle_no_permission request))
    (UserPassesTestMixin_dispatch
       (AuthorRequiredMixin_test_func (CommentMixin_get_object db request)
          comment_author request)
       (unchanged db (CommentMixin_handle_no_permission request))
       (form_dispatch (pair db) request
          (object <- CommentMixin_get_object db request ;;
           Ok (db, TemplateResponse "blog/create.html" form_context))
          (object <- CommentMixin_get_object db request ;;
           if cf_is_valid form then
             let object := CommentForm_save_commit_false form object in
             Ok (Comment_save db object,
                 HttpResponseRedirect (CommentMixin_get_success_url request))
           else Ok (db, TemplateResponse "blog/create.html" form_context)))).

Definition EditCommentView (db : DB) (request : Request) (form : CommentForm)
    : DB * Response :=
  commit db (EditCommentView_dispatch db request form).

Definition DeleteCommentView_dispatch (db : DB) (request : Request)
    : Result (DB * Response) :=
  LoginRequiredMixin_dispatch request
    (unchanged db (CommentMixin_handle_no_permission request))
    (UserPassesTestMixin_dispatch
       (AuthorRequiredMixin_test_func (CommentMixin_get_object db request)
          comment_author request)
       (unchanged db (CommentMixin_handle_no_permission request))
       (delete_dispatch (pair db) request
          (object <- CommentMixin_get_object db request ;;
           Ok (db, TemplateResponse "blog/comment.html" form_context))
          (object <- CommentMixin_get_object db request ;;
           let success_url := CommentMixin_get_success_url request in
           Ok (Comment_delete db object, HttpResponseRedirect success_url)))).

Definition DeleteCommentView (db : DB) (request : Request) : DB * Response :=
  commit db (DeleteCommentView_dispatch db request).

(** *** EditProfileView *)

Definition EditProfileView_get_object (request : Request) : RequestUser :=
  user request.

Definition EditProfileView_get_success_url (request_user : RequestUser)
    : Url :=
  url_profile (request_username request_user).

(** The form's instance is [request.user] itself, so the name
    [get_success_url] reads after [form.save()] is the saved one. *)
Definition EditProfileView_dispatch (db : DB) (request : Request)
    (form : EditProfileForm) : Result (DB * Response) :=
  LoginRequiredMixin_dispatch request
    (unchanged db (AccessMixin_handle_no_permission request))
    (form_dispatch (pair db) request
       (Ok (db, TemplateResponse "blog/user.html" form_context))
       (match EditProfileView_get_object request with
        | AnonymousUser => Raise ValueError
        | LoggedIn object =>
            if ef_is_valid form then
              let object := EditProfileForm_save_commit_false form object in
              Ok (User_save db object,
                  HttpResponseRedirect
                    (EditProfileView_get_success_url (LoggedIn object)))
            else Ok (db, TemplateResponse "blog/user.html" form_context)
        end)).

Definition EditProfileView (db : DB) (request : Request)
    (form : EditProfileForm) : DB * Response :=
  commit db (EditProfileView_dispatch db request form).

End Views.

(** ** The four mutation requests *)

Inductive Mutation : Type :=
| EditPost (form : PostForm)
| DeletePost
| EditComment (form : CommentForm)
| DeleteComment.

Definition mutation_view {mixin : CommentMixin} (db : DB) (request : Request)
    (m : Mutation) : DB * Response :=
  match m with
  | EditPost form => EditPostView db request form
  | DeletePost => DeletePostView db request
  | EditComment form => EditCommentView db request form
  | DeleteComment => DeleteCommentView db request
  end.

(** The author of the object a mutation request targets: what the view's
    [get_object] resolves the request to. *)
Definition target_author {mixin : CommentMixin} (db : DB) (request : Request)
    (m : Mutation) : Result nat :=
  match m with
  | EditPost _ | DeletePost =>
      post <- Post_get_object db request ;; Ok (post_author post)
  | EditComment _ | DeleteComment =>
      comment <- CommentMixin_get_object db request ;;
      Ok (comment_author comment)
  end.

(** The number of published comments on a post, as the profile page is
    meant to count them. *)
Definition published_comments_on (db : DB) (p : Post) : nat :=
  List.length (filter comment_is_published (post_comments db p)).

(** ** Every request behind the login gate *)

Inductive Submission : Type :=
| CreatePost (form : PostForm)
| AddComment (form : CommentForm)
| EditProfile (form : EditProfileForm)
| Mutate (m : Mutation).

Definition submission_view {mixin : CommentMixin} (now : Z) (db : DB)
    (request : Request) (s : Submission) : DB * Response :=
  match s with
  | CreatePost form => CreatePostView db request form
  | AddComment form => AddCommentView now db request form
  | EditProfile form => EditProfileView db request form
  | Mutate m => mutation_view db request m
  end.

(** Uniqueness of the primary keys of the three tables the views write. *)
Definition comment_keys_unique (db : DB) : Prop :=
  NoDup (map comment_pk (Comment_objects db)).

Definition user_keys_unique (db : DB) : Prop :=
  NoDup (map user_pk (User_objects db)).

Definition keys_unique (db : DB) : Prop :=
  primary_keys_unique db /\ comment_keys_unique db /\ user_keys_unique db.

(** The request with another [page] parameter. *)
Definition with_page (request : Request) (n : nat) : Request :=
  {| user := user request; method := method request;
     kwargs := kwargs request; page := n |}.

(** ** Sample data *)

(** A comment mixin of the usual shape: the comment named by
    [comment_id], Django's own permission handling, back to the post. *)
Definition comment_mixin_by_pk : CommentMixin :=
  {| CommentMixin_get_object := fun db request =>
       get_object_or_404 (Comment_objects db)
         (fun c => comment_pk c =? comment_id (kwargs request));
     CommentMixin_handle_no_permission := AccessMixin_handle_no_permission;
     CommentMixin_get_success_url := fun request =>
       url_post_detail (post_id (kwargs request)) |}.

Definition alice : User := {| user_pk := 1; username := "alice" |}.
Definition bob : User := {| user_pk := 2; username := "bob" |}.

Definition travel : Category :=
  {| category_pk := 1; slug := "travel"; category_is_published := true |}.
Definition archive : Category :=
  {| category_pk := 2; slug := "archive"; category_is_published := false |}.

(** Alice's unpublished post, in an unpublished category, dated after
    [sample_now]. *)
Definition draft : Post :=
  {| post_pk := 1; title := "draft"; text := "to do"; post_author := 1;
     post_category := 2; pub_date := 200%Z; post_is_published := false |}.

(** Alice's public post. *)
Definition essay : Post :=
  {| post_pk := 2; title := "essay"; text := "done"; post_author := 1;
     post_category := 1; pub_date := 50%Z; post_is_published := true |}.

(** Bob's unpublished comment and Alice's published one, both on [essay]. *)
Definition withheld : Comment :=
  {| comment_pk := 1; comment_text := "first"; comment_author := 2;
     comment_post := 2; comment_is_published := false; created_at := 60%Z |}.
Definition reply : Comment :=
  {| comment_pk := 2; comment_text := "second"; comment_author := 1;
     comment_post := 2; comment_is_published := true; created_at := 70%Z |}.

Definition sample_db : DB :=
  {| User_objects := [alice; bob];
     Category_objects := [travel; archive];
     Post_objects := [draft; essay];
     Comment_objects := [withheld; reply] |}.

Definition sample_now : Z := 100%Z.

Definition sample_kwargs (post comment : nat) (category name : string)
    : Kwargs :=
  {| post_id := post; comment_id := comment;
     category_slug := category; username_kwarg := name |}.

Definition sample_request (u : RequestUser) (m : Method) (kw : Kwargs)
    : Request :=
  {| user := u; method := m; kwargs := kw; page := 1 |}.

(** A post form and a comment form that name Alice as the author. *)
Definition forged_post_form : PostForm :=
  {| pf_is_valid := true; pf_title := "news"; pf_text := "body";
     pf_category := 1; pf_pub_date := 90%Z; pf_is_published := true;
     pf_author := Some 1 |}.

Definition forged_comment_form : CommentForm :=
  {| cf_is_valid := true; cf_text := "hello"; cf_author := Some 1 |}.

(** A profile form that changes the name, and a draft submitted as a
    new post. *)
Definition rename_form : EditProfileForm :=
  {| ef_is_valid := true; ef_username := Some "robert" |}.

Definition unpublished_post_form : PostForm :=
  {| pf_is_valid := true; pf_title := "notes"; pf_text := "later";
     pf_category := 2; pf_pub_date := 500%Z; pf_is_published := false;
     pf_author := None |}.

(** Twelve posts by Bob, for the second page of a listing. *)
Definition bobs_post (n : nat) : Post :=
  {| post_pk := n; title := "post"; text := "text"; post_author := 2;
     post_category := 1; pub_date := 10%Z; post_is_published := true |}.

Definition long_db : DB :=
  {| User_objects := [alice; bob];
     Category_objects := [travel; archive];
     Post_objects := map bobs_post (seq 1 12);
     Comment_objects := [] |}.

(** ** Lemmas on the ORM model *)

Lemma filter_none {A : Type} (f : A -> bool) (l : list A) :
  (forall x, In x l -> f x = false) -> filter f l = [].
Proof.
  induction l as [|a l IH]; simpl; intros H; [reflexivity|].
  rewrite (H a (or_introl eq_refl)). apply IH. intros x Hx. apply H. now right.
Qed.

Lemma filter_unique_key {A K : Type} (key : A -> K) (eqb : K -> K -> bool)
    (l : list A) (x : A) :
  (forall a b, eqb a b = true <-> a = b) ->
  NoDup (map key l) -> In x l ->
  filter (fun r => eqb (key r) (key x)) l = [x].
Proof.
  intros Heqb.
  induction l as [|a l IH]; simpl; intros Hnd Hin; [contradiction|].
  inversion Hnd as [|? ? Hnotin Hnd']; subst.
  destruct Hin as [-> | Hin].
  - rewrite (proj2 (Heqb _ _) eq_refl). f_equal. apply filter_none.
    intros y Hy. destruct (eqb (key y) (key x)) eqn:E; [|reflexivity].
    exfalso. apply Hnotin. apply Heqb in E. rewrite <- E. now apply in_map.
  - destruct (eqb (key a) (key x)) eqn:E.
    + exfalso. apply Hnotin. apply Heqb in E. rewrite E. now apply in_map.
    + now apply IH.
Qed.

Lemma filter_unique_pk {A : Type} (pk : A -> nat) (l : list A) (x : A) :
  NoDup (map pk l) -> In x l -> filter (fun r => pk r =? pk x) l = [x].
Proof.
  apply (filter_unique_key pk Nat.eqb). apply Nat.eqb_eq.
Qed.

Lemma get_object_or_404_none {A : Type} (qs : list A) (lookup : A -> bool) :
  (forall x, In x qs -> lookup x = false) ->
  get_object_or_404 qs lookup = Raise Http404.
Proof.
  intros H. unfold get_object_or_404. now rewrite (filter_none _ _ H).
Qed.

Lemma get_object_or_404_Ok {A : Type} (qs : list A) (lookup : A -> bool)
    (obj : A) :
  get_object_or_404 qs lookup = Ok obj -> In obj qs /\ lookup obj = true.
Proof.
  unfold get_object_or_404. intros H.
  destruct (filter lookup qs) as [|a [|b l]] eqn:E; try discriminate.
  injection H as ->. apply filter_In. rewrite E. now left.
Qed.

Lemma get_object_or_404_pk {A : Type} (pk : A -> nat) (qs : list A)
    (obj : A) :
  NoDup (map pk qs) -> In obj qs ->
  get_object_or_404 qs (fun r => pk r =? pk obj) = Ok obj.
Proof.
  intros Hnd Hin. unfold get_object_or_404.
  now rewrite (filter_unique_pk pk qs obj Hnd Hin).
Qed.

Lemma get_post_queryset_posts (db : DB) (now : Z) (manager : list Post)
    (filter_published annotate_comments : bool) :
  map row_post
    (get_post_queryset db now manager filter_published annotate_comments)
  = if filter_published then filter (publicly_visible db now) manager
    else manager.
Proof.
  unfold get_post_queryset. rewrite map_map. simpl. apply map_id.
Qed.

Lemma In_firstn {A : Type} (n : nat) (l : list A) (x : A) :
  In x (firstn n l) -> In x l.
Proof.
  intros H. rewrite <- (firstn_skipn n l). apply in_or_app. now left.
Qed.

Lemma In_skipn {A : Type} (n : nat) (l : list A) (x : A) :
  In x (skipn n l) -> In x l.
Proof.
  intros H. rewrite <- (firstn_skipn n l). apply in_or_app. now right.
Qed.

Lemma paginate_queryset_incl {A : Type} (request : Request)
    (queryset page_obj : list A) :
  paginate_queryset request queryset = Ok page_obj ->
  incl page_obj queryset.
Proof.
  unfold paginate_queryset.
  destruct ((1 <=? page request) && (page request <=? num_pages queryset));
    [|discriminate].
  intros H. injection H as <-. intros x Hx.
  apply (In_skipn ((page request - 1) * paginate_by)).
  apply (In_firstn paginate_by). exact Hx.
Qed.

Lemma Sum_spec {A : Type} (f : A -> nat) (l : list A) :
  Sum (map f l)
  = match l with
    | [] => None
    | _ :: _ => Some (list_sum (map f l))
    end.
Proof. now destruct l. Qed.

Lemma paginate_queryset_first {A : Type} (request : Request)
    (queryset : list A) :
  page request = 1 ->
  paginate_queryset request queryset = Ok (firstn paginate_by queryset).
Proof.
  intros Hpage. unfold paginate_queryset, num_pages. rewrite Hpage.
  replace (1 <=? Nat.max 1 _) with true; [reflexivity|].
  symmetry. apply Nat.leb_le. apply Nat.le_max_l.
Qed.

Lemma next_pk_fresh (pks : list nat) (k : nat) :
  In k pks -> (k =? next_pk pks) = false.
Proof.
  intros Hin. apply Nat.eqb_neq. unfold next_pk.
  assert (Hle : Forall (fun j => j <= list_max pks) pks)
    by now apply list_max_le.
  rewrite Forall_forall in Hle. specialize (Hle k Hin). lia.
Qed.

(** Saving again the row that was just inserted changes nothing. *)
Lemma save_row_inserted {A : Type} (pk : A -> nat) (table : list A)
    (obj : A) :
  pk obj = next_pk (map pk table) ->
  save_row pk obj (table ++ [obj]) = table ++ [obj].
Proof.
  intros Hpk. unfold save_row.
  replace (existsb (fun r => pk r =? pk obj) (table ++ [obj])) with true.
  2:{ symmetry. apply existsb_exists. exists obj. split.
      - apply in_or_app. right. now left.
      - apply Nat.eqb_refl. }
  rewrite map_app. simpl. rewrite Nat.eqb_refl. f_equal.
  rewrite <- (map_id table) at 2. apply map_ext_in.
  intros r Hr. rewrite Hpk, next_pk_fresh; [reflexivity|]. now apply in_map.
Qed.

Lemma get_object_or_404_map {A B : Type} (g : A -> B) (qs : list A)
    (lookup : B -> bool) :
  get_object_or_404 (map g qs) lookup
  = (x <- get_object_or_404 qs (fun a => lookup (g a)) ;; Ok (g x)).
Proof.
  unfold get_object_or_404. rewrite filter_map_swap.
  now destruct (filter (fun a => lookup (g a)) qs) as [|a [|b l]].
Qed.

Lemma pk_determines_row {A : Type} (pk : A -> nat) (l : list A) (x y : A) :
  NoDup (map pk l) -> In x l -> In y l -> pk x = pk y -> x = y.
Proof.
  intros Hnd Hx Hy Heq.
  assert (Hin : In y (filter (fun r => pk r =? pk x) l)).
  { apply filter_In. split; [exact Hy|]. apply Nat.eqb_eq. now symmetry. }
  rewrite (filter_unique_pk pk l x Hnd Hx) in Hin.
  destruct Hin as [<- | []]. reflexivity.
Qed.

(** *** The login and authorship gates in front of a mutation *)

Lemma commit_unchanged (db : DB) (handle_no_permission : Result Response) :
  fst (commit db (unchanged db handle_no_permission)) = db.
Proof. now destruct handle_no_permission. Qed.

Lemma gates_deny {A : Type} (db : DB) (request : Request)
    (get_object : Result A) (author : A -> nat)
    (handle_no_permission : Result Response)
    (handler : Result (DB * Response)) (a : nat) :
  (obj <- get_object ;; Ok (author obj)) = Ok a ->
  is_user a (user request) = false ->
  commit db
    (LoginRequiredMixin_dispatch request (unchanged db handle_no_permission)
       (UserPassesTestMixin_dispatch
          (AuthorRequiredMixin_test_func get_object author request)
          (unchanged db handle_no_permission)
          handler))
  = commit db (unchanged db handle_no_permission).
Proof.
  unfold LoginRequiredMixin_dispatch, UserPassesTestMixin_dispatch,
    AuthorRequiredMixin_test_func.
  destruct get_object as [obj|e]; simpl; [|discriminate].
  intros [= <-] Hne. rewrite Hne. simpl.
  now destruct (is_authenticated (user request)).
Qed.

Lemma gates_pass_only_author {A : Type} (db : DB) (request : Request)
    (get_object : Result A) (author : A -> nat)
    (handle_no_permission : Result Response)
    (handler : Result (DB * Response)) :
  fst (commit db
         (LoginRequiredMixin_dispatch request
            (unchanged db handle_no_permission)
            (UserPassesTestMixin_dispatch
               (AuthorRequiredMixin_test_func get_object author request)
               (unchanged db handle_no_permission)
               handler))) <> db ->
  exists a,
    (obj <- get_object ;; Ok (author obj)) = Ok a
    /\ is_user a (user request) = true.
Proof.
  intros Hchanged.
  destruct get_object as [obj|e] eqn:Hobj.
  - destruct (is_user (author obj) (user request)) eqn:Hu.
    + exists (author obj). now split.
    + exfalso. apply Hchanged.
      rewrite (gates_deny _ _ _ _ _ _ (author obj));
        [apply commit_unchanged|reflexivity|exact Hu].
  - exfalso. apply Hchanged.
    unfold LoginRequiredMixin_dispatch, UserPassesTestMixin_dispatch,
      AuthorRequiredMixin_test_func.
    simpl.
    destruct (is_authenticated (user request)); simpl;
      [reflexivity | apply commit_unchanged].
Qed.

Lemma display_dispatch_template (request : Request) (get : Result Response)
    (template : string) (context : Context) :
  respond (display_dispatch id request get)
  = TemplateResponse template context ->
  get = Ok (TemplateResponse template context).
Proof.
  unfold display_dispatch.
  destruct (method request); simpl; try discriminate;
    destruct get as [resp|e]; simpl; try (now destruct e); congruence.
Qed.

Lemma form_dispatch_unchanged (db : DB) (request : Request)
    (get post : Result (DB * Response)) :
  fst (commit db get) = db ->
  fst (commit db post) = db ->
  fst (commit db (form_dispatch (pair db) request get post)) = db.
Proof.
  unfold form_dispatch. now destruct (method request).
Qed.

Lemma form_dispatch_redirect (db : DB) (request : Request)
    (get post : Result (DB * Response)) (to : Url) :
  (forall to', snd (commit db get) <> HttpResponseRedirect to') ->
  snd (commit db (form_dispatch (pair db) request get post))
  = HttpResponseRedirect to ->
  commit db (form_dispatch (pair db) request get post) = commit db post.
Proof.
  unfold form_dispatch. intros Hget.
  destruct (method request); simpl; try discriminate; try reflexivity;
    intros H; now apply Hget in H.
Qed.

Lemma form_dispatch_post {R : Type} (lift : Response -> R)
    (request : Request) (get post : Result R) :
  method request = POST \/ method request = PUT ->
  form_dispatch lift request get post = post.
Proof.
  unfold form_dispatch. now intros [-> | ->].
Qed.

(** The row at position [i] of a queryset is on page [i / 10 + 1]. *)
Lemma paginate_queryset_on_page {A : Type} (request : Request)
    (queryset : list A) (i : nat) (x : A) :
  nth_error queryset i = Some x ->
  page request = i / paginate_by + 1 ->
  exists page_obj,
    paginate_queryset request queryset = Ok page_obj /\ In x page_obj.
Proof.
  intros Hnth Hpage.
  assert (Hlt : i < List.length queryset)
    by (apply nth_error_Some; congruence).
  unfold paginate_queryset, num_pages. rewrite Hpage. unfold paginate_by.
  assert (Hdiv : (i + 1 * 10) / 10 = i / 10 + 1)
    by (apply Nat.div_add; discriminate).
  assert (Hle : (i + 1 * 10) / 10 <= (List.length queryset + 10 - 1) / 10)
    by (apply Nat.Div0.div_le_mono; lia).
  replace ((1 <=? i / 10 + 1)
           && (i / 10 + 1
               <=? Nat.max 1 ((List.length queryset + 10 - 1) / 10)))
    with true.
  2:{ symmetry. apply andb_true_intro. split; apply Nat.leb_le; lia. }
  eexists. split; [reflexivity|].
  apply (nth_error_In _ (i mod 10)).
  rewrite nth_error_firstn.
  replace (i mod 10 <? 10) with true.
  2:{ symmetry. apply Nat.ltb_lt. apply Nat.mod_upper_bound. discriminate. }
  rewrite nth_error_skipn.
  replace ((i / 10 + 1 - 1) * 10 + i mod 10) with i; [exact Hnth|].
  pose proof (Nat.div_mod_eq i 10). lia.
Qed.

(** ** Properties of the views *)

Section Properties.

Context (now : Z) (annotate_comments_default : bool) {mixin : CommentMixin}.

(** C1. An edit-post, delete-post, edit-comment or delete-comment request
    changes or deletes its target only when the requesting user is the
    target's author: a request by anyone else leaves the whole database,
    the target included, as it was; and whenever the database does change,
    the request resolved to a target whose author is the requester. *)
Theorem mutation_only_by_author (db : DB) (request : Request)
    (m : Mutation) :
  (forall a,
      target_author db request m = Ok a ->
      is_user a (user request) = false ->
      fst (mutation_view db request m) = db)
  /\ (fst (mutation_view db request m) <> db ->
      exists a,
        target_author db request m = Ok a
        /\ is_user a (user request) = true).
Proof.
  split.
  - intros a Htarget Hother.
    destruct m; simpl in *;
      [unfold EditPostView, EditPostView_dispatch
      |unfold DeletePostView, DeletePostView_dispatch
      |unfold EditCommentView, EditCommentView_dispatch
      |unfold DeleteCommentView, DeleteCommentView_dispatch];
      rewrite (gates_deny _ _ _ _ _ _ a Htarget Hother);
      apply commit_unchanged.
  - destruct m; simpl; intros Hchanged;
      exact (gates_pass_only_author _ _ _ _ _ _ Hchanged).
Qed.

(** C2, as the code has it.  The post-detail request of the author of
    a post is answered with the post, whatever the post's publication
    flag, category and publication date.  On the author's own profile
    the post is in the queryset, which is shown ten posts to a page: the
    post is listed on the page that its position [i] in the queryset
    falls on, page [i / 10 + 1], and a request for that page is answered
    with a page that lists it. *)
Theorem author_sees_own_post (db : DB) (request : Request) (p : Post) :
  primary_keys_unique db ->
  In p (Post_objects db) ->
  is_user (post_author p) (user request) = true ->
  method request = GET ->
  (post_id (kwargs request) = post_pk p ->
     PostDetailView_get_object now db request = Ok p
     /\ exists comments,
          PostDetailView now db request
          = TemplateResponse "blog/detail.html" (detail_context p comments))
  /\ (forall profile,
        ProfileView_get_user db request = Ok profile ->
        post_author p = user_pk profile ->
        (exists queryset,
            ProfileView_get_queryset now annotate_comments_default db request
            = Ok queryset
            /\ In p (map row_post queryset))
        /\ (exists i, nth_error (user_posts db profile) i = Some p)
        /\ forall i,
             nth_error (user_posts db profile) i = Some p ->
             page request = i / paginate_by + 1 ->
             exists object_list total,
               ProfileView now annotate_comments_default db request
               = TemplateResponse "blog/profile.html"
                   (profile_context object_list profile total)
               /\ In p (map row_post object_list)).
Proof.
  intros Hpk Hin Hauthor Hget. split.
  - intros Hid.
    assert (Hobj : PostDetailView_get_object now db request = Ok p).
    { unfold PostDetailView_get_object.
      unfold get_post_queryset at 1. rewrite get_object_or_404_map. simpl.
      rewrite Hid, (get_object_or_404_pk post_pk _ p Hpk Hin). simpl.
      now rewrite Hauthor. }
    split; [exact Hobj|].
    unfold PostDetailView, display_dispatch, PostDetailView_get.
    rewrite Hget, Hobj. simpl. eexists. reflexivity.
  - intros profile Huser Hown.
    assert (Hmine : In p (user_posts db profile)).
    { apply filter_In. split; [exact Hin|]. now apply Nat.eqb_eq. }
    assert (Hflag : negb (is_authenticated (user request))
                    || negb (is_user (user_pk profile) (user request))
                    = false).
    { rewrite <- Hown, Hauthor.
      destruct (user request) as [|usr]; [discriminate|reflexivity]. }
    split; [|split].
    + unfold ProfileView_get_queryset. rewrite Huser. cbn [bind].
      eexists. split; [reflexivity|].
      rewrite get_post_queryset_posts, Hflag. exact Hmine.
    + now apply In_nth_error.
    + intros i Hi Hpage.
      pose (queryset := get_post_queryset db now (user_posts db profile)
                          false annotate_comments_default).
      assert (Hrow : exists r,
                 nth_error queryset i = Some r /\ row_post r = p).
      { unfold queryset, get_post_queryset. cbv beta iota zeta.
        rewrite nth_error_map, Hi. eexists. split; reflexivity. }
      destruct Hrow as [r [Hrow Hr]].
      destruct (paginate_queryset_on_page request queryset i r Hrow Hpage)
        as [page_obj [Hpage_obj Hin_page]].
      exists page_obj. eexists. split.
      * unfold ProfileView, display_dispatch, ProfileView_get,
          ProfileView_get_queryset, ProfileView_get_context_data.
        rewrite Hget, Huser. cbn [bind]. rewrite Hflag.
        fold queryset. rewrite Hpage_obj. reflexivity.
      * apply in_map_iff. exists r. now split.
Qed.

(** C4. A post-detail request by anyone but the post's author, for a post
    that fails the public-visibility predicate (its own flag, its
    category's flag, a publication date not in the future), is answered
    with 404. *)
Theorem hidden_post_is_404 (db : DB) (request : Request) (p : Post) :
  primary_keys_unique db ->
  In p (Post_objects db) ->
  post_id (kwargs request) = post_pk p ->
  is_user (post_author p) (user request) = false ->
  publicly_visible db now p = false ->
  method request = GET ->
  PostDetailView_get_object now db request = Raise Http404
  /\ PostDetailView now db request = HttpResponseNotFound.
Proof.
  intros Hpk Hin Hid Hother Hhidden Hget.
  assert (Hobj : PostDetailView_get_object now db request = Raise Http404).
  { unfold PostDetailView_get_object.
    unfold get_post_queryset at 1. rewrite get_object_or_404_map. simpl.
    rewrite Hid, (get_object_or_404_pk post_pk _ p Hpk Hin). simpl.
    rewrite Hother. simpl.
    rewrite get_object_or_404_none; [reflexivity|].
    intros r Hr. apply Nat.eqb_neq. intros Heq.
    assert (Hq : In (row_post r)
                   (map row_post
                      (get_post_queryset db now (Post_objects db) true false)))
      by now apply in_map.
    rewrite get_post_queryset_posts in Hq. apply filter_In in Hq.
    destruct Hq as [Hq Hvisible].
    rewrite (pk_determines_row post_pk _ _ _ Hpk Hq Hin Heq) in Hvisible.
    congruence. }
  split; [exact Hobj|].
  unfold PostDetailView, display_dispatch, PostDetailView_get.
  now rewrite Hget, Hobj.
Qed.

(** C5. The post list of a category page requested by an unauthenticated
    user holds no post whose [is_published] flag is false: every post of
    the queryset, and so every post of the page rendered, is published. *)
Theorem category_page_published_only (db : DB) (request : Request) :
  user request = AnonymousUser ->
  (forall queryset,
      CategoryPostListView_get_queryset now db request = Ok queryset ->
      forall r, In r queryset -> post_is_published (row_post r) = true)
  /\ (forall template object_list category,
        CategoryPostListView now db request
        = TemplateResponse template (category_context object_list category) ->
        forall r, In r object_list -> post_is_published (row_post r) = true).
Proof.
  intros _.
  assert (Hqs : forall queryset,
             CategoryPostListView_get_queryset now db request = Ok queryset ->
             forall r, In r queryset ->
                       post_is_published (row_post r) = true).
  { unfold CategoryPostListView_get_queryset. intros queryset Hq r Hr.
    destruct (get_object_or_404 _ _) as [category|e]; simpl in Hq;
      [|discriminate].
    injection Hq as <-.
    apply (in_map row_post) in Hr. rewrite get_post_queryset_posts in Hr.
    apply filter_In in Hr. destruct Hr as [_ Hvisible].
    unfold publicly_visible in Hvisible.
    now apply andb_prop in Hvisible as [Hvisible _];
      apply andb_prop in Hvisible as [Hvisible _]. }
  split; [exact Hqs|].
  intros template object_list category Hresp r Hr.
  apply display_dispatch_template in Hresp.
  unfold CategoryPostListView_get in Hresp.
  destruct (CategoryPostListView_get_queryset now db request)
    as [queryset|e] eqn:Hq; simpl in Hresp; [|discriminate].
  unfold CategoryPostListView_get_context_data in Hresp.
  destruct (paginate_queryset request queryset) as [page_obj|e] eqn:Hpage;
    simpl in Hresp; [|discriminate].
  destruct (get_object_or_404 _ _) as [c|e]; simpl in Hresp;
    [|discriminate].
  injection Hresp as _ <- _.
  apply (Hqs queryset eq_refl).
  exact (paginate_queryset_incl _ _ _ Hpage r Hr).
Qed.


(** C3, as the code has it.  The comment list of a rendered post-detail
    page is exactly the comments on the post whose [is_published] flag is
    true, whoever asks: an unpublished comment is left out, also when the
    requester wrote it. *)
Theorem detail_comments_published_only (db : DB) (request : Request)
    (template : string) (object : Post) (comments : list Comment) :
  PostDetailView now db request
  = TemplateResponse template (detail_context object comments) ->
  forall c,
    In c comments
    <-> In c (Comment_objects db)
        /\ comment_post c = post_pk object
        /\ comment_is_published c = true.
Proof.
  unfold PostDetailView. intros Hresp c.
  apply display_dispatch_template in Hresp.
  unfold PostDetailView_get, PostDetailView_get_context_data in Hresp.
  destruct (PostDetailView_get_object now db request) as [post|e];
    simpl in Hresp; [|discriminate].
  injection Hresp as _ <- <-.
  unfold post_comments. rewrite !filter_In, Nat.eqb_eq. tauto.
Qed.

(** C6, where the code departs from it.  A delete-post request by a
    logged-in user who is not the post's author is answered with 403 and
    not with a redirect to the post's detail page: [DeletePostView] has
    no [handle_no_permission] of its own and falls back on the one of
    [AccessMixin], while [EditPostView], for the same request, redirects
    to the detail page.  Neither changes the database. *)
Theorem non_author_delete_post_is_403 (db : DB) (request : Request)
    (form : PostForm) (p : Post) :
  Post_get_object db request = Ok p ->
  is_authenticated (user request) = true ->
  is_user (post_author p) (user request) = false ->
  DeletePostView db request = (db, HttpResponseForbidden)
  /\ EditPostView db request form
     = (db, HttpResponseRedirect (url_post_detail (post_id (kwargs request)))).
Proof.
  intros Hobj Hauth Hother.
  assert (Htarget : (post <- Post_get_object db request ;;
                     Ok (post_author post)) = Ok (post_author p))
    by now rewrite Hobj.
  unfold DeletePostView, DeletePostView_dispatch,
    EditPostView, EditPostView_dispatch.
  rewrite !(gates_deny _ _ _ _ _ _ _ Htarget Hother).
  unfold AccessMixin_handle_no_permission. rewrite Hauth. now split.
Qed.

Lemma AddCommentView_form_valid_creates (db : DB) (request : Request)
    (form : CommentForm) (usr : User) (p : Post) :
  user request = LoggedIn usr ->
  get_object_or_404 (Post_objects db)
    (fun q => post_pk q =? post_id (kwargs request)) = Ok p ->
  exists c,
    AddCommentView_form_valid now db request form
    = Ok (with_comments db (Comment_objects db ++ [c]),
          HttpResponseRedirect (url_post_detail (post_id (kwargs request))))
    /\ comment_author c = user_pk usr
    /\ comment_post c = post_pk p.
Proof.
  intros Huser Hpost. unfold AddCommentView_form_valid.
  rewrite Hpost, Huser. simpl.
  eexists. split; [|split].
  - unfold Comment_save, with_comments. simpl.
    rewrite save_row_inserted by reflexivity. reflexivity.
  - reflexivity.
  - reflexivity.
Qed.

(** C7, as the code has it.  An add-comment request by a logged-in user
    creates a comment only when the target post exists; a valid
    submission naming a post that does not exist is answered with 404
    and creates nothing. *)
Theorem comment_needs_existing_post (db : DB) (request : Request)
    (form : CommentForm) :
  is_authenticated (user request) = true ->
  (fst (AddCommentView now db request form) <> db ->
     exists p, In p (Post_objects db) /\ post_pk p = post_id (kwargs request))
  /\ ((forall p, In p (Post_objects db) ->
                 post_pk p <> post_id (kwargs request)) ->
      fst (AddCommentView now db request form) = db
      /\ (method request = POST \/ method request = PUT ->
          cf_is_valid form = true ->
          snd (AddCommentView now db request form) = HttpResponseNotFound)).
Proof.
  intros Hauth. split.
  - intros Hchanged.
    destruct (get_object_or_404 (Post_objects db)
                (fun q => post_pk q =? post_id (kwargs request)))
      as [p|e] eqn:Hpost.
    + apply get_object_or_404_Ok in Hpost. destruct Hpost as [Hin Hpk].
      exists p. split; [exact Hin|]. now apply Nat.eqb_eq.
    + exfalso. apply Hchanged.
      unfold AddCommentView, AddCommentView_dispatch,
        LoginRequiredMixin_dispatch, AddCommentView_form_valid.
      rewrite Hauth, Hpost. simpl.
      apply form_dispatch_unchanged; [reflexivity|].
      now destruct (cf_is_valid form).
  - intros Hnone.
    assert (H404 : AddCommentView_form_valid now db request form
                   = Raise Http404).
    { unfold AddCommentView_form_valid.
      rewrite get_object_or_404_none; [reflexivity|].
      intros p Hp. apply Nat.eqb_neq. now apply Hnone. }
    unfold AddCommentView, AddCommentView_dispatch,
      LoginRequiredMixin_dispatch.
    rewrite Hauth, H404. simpl. split.
    + apply form_dispatch_unchanged; [reflexivity|].
      now destruct (cf_is_valid form).
    + intros Hpost ->. now rewrite (form_dispatch_post _ _ _ _ Hpost).
Qed.

Lemma Count_comments_published_eq (db : DB) (p : Post) :
  Count_comments_published db p = published_comments_on db p.
Proof.
  unfold Count_comments_published, published_comments_on, post_comments.
  f_equal.
  induction (Comment_objects db) as [|c l IH]; simpl; [reflexivity|].
  destruct (comment_post c =? post_pk p); simpl; [|exact IH].
  destruct (comment_is_published c); now rewrite IH.
Qed.

(** C9. A successful create-post or add-comment request stores exactly
    one new object, and its author is the requesting user, whatever
    author the submitted form names; a valid submission by a logged-in
    user is such a request (for a comment, when it names an existing
    post). *)
Theorem created_object_author_is_requester (db : DB) (request : Request)
    (usr : User) (post_form : PostForm) (comment_form : CommentForm) :
  user request = LoggedIn usr ->
  (snd (CreatePostView db request post_form)
   = HttpResponseRedirect (url_profile (username usr)) ->
   exists p,
     Post_objects (fst (CreatePostView db request post_form))
     = Post_objects db ++ [p]
     /\ post_author p = user_pk usr)
  /\ (snd (AddCommentView now db request comment_form)
      = HttpResponseRedirect (url_post_detail (post_id (kwargs request))) ->
      exists c,
        Comment_objects (fst (AddCommentView now db request comment_form))
        = Comment_objects db ++ [c]
        /\ comment_author c = user_pk usr)
  /\ (method request = POST ->
      pf_is_valid post_form = true ->
      snd (CreatePostView db request post_form)
      = HttpResponseRedirect (url_profile (username usr)))
  /\ (method request = POST ->
      cf_is_valid comment_form = true ->
      forall p,
        primary_keys_unique db -> In p (Post_objects db) ->
        post_pk p = post_id (kwargs request) ->
        snd (AddCommentView now db request comment_form)
        = HttpResponseRedirect (url_post_detail (post_id (kwargs request)))).
Proof.
  intros Huser. repeat split.
  - unfold CreatePostView, CreatePostView_dispatch,
      LoginRequiredMixin_dispatch, CreatePostView_form_valid.
    rewrite Huser. simpl. intros Hresp.
    assert (Hpost := Hresp).
    apply form_dispatch_redirect in Hpost; [|intros to'; discriminate].
    rewrite Hpost in Hresp |- *.
    destruct (pf_is_valid post_form); simpl in *; [|discriminate].
    eexists; split; reflexivity.
  - unfold AddCommentView, AddCommentView_dispatch,
      LoginRequiredMixin_dispatch.
    rewrite Huser. simpl.
    destruct (get_object_or_404 (Post_objects db)
                (fun q => post_pk q =? post_id (kwargs request)))
      as [p|e] eqn:Hpost.
    + destruct (AddCommentView_form_valid_creates db request comment_form
                  usr p Huser Hpost) as [c [Hc [Hauthor _]]].
      rewrite Hc. intros Hresp.
      assert (Hsaved := Hresp).
      apply form_dispatch_redirect in Hsaved; [|intros to'; discriminate].
      rewrite Hsaved in Hresp |- *.
      destruct (cf_is_valid comment_form); simpl in *; [|discriminate].
      exists c; now split.
    + unfold AddCommentView_form_valid. rewrite Hpost. simpl. intros Hresp.
      assert (Hsaved := Hresp).
      apply form_dispatch_redirect in Hsaved; [|intros to'; discriminate].
      rewrite Hsaved in Hresp.
      now destruct (cf_is_valid comment_form), e.
  - intros Hpost Hvalid.
    unfold CreatePostView, CreatePostView_dispatch,
      LoginRequiredMixin_dispatch, form_dispatch, CreatePostView_form_valid.
    now rewrite Huser, Hpost, Hvalid.
  - intros Hpost Hvalid p Hpk Hin Hid.
    destruct (AddCommentView_form_valid_creates db request comment_form
                usr p Huser) as [c [Hc _]].
    { rewrite <- Hid. now apply get_object_or_404_pk. }
    unfold AddCommentView, AddCommentView_dispatch,
      LoginRequiredMixin_dispatch, form_dispatch.
    now rewrite Huser, Hpost, Hvalid, Hc.
Qed.

(** C10. On a rendered profile page, [comment_count] is the sum, over
    the posts of the profiled user, of the number of comments on the post
    whose [is_published] flag is true; it is [None], not 0, when the user
    has no posts.  And the page is rendered, with that value, for the
    first page of every existing user. *)
Theorem profile_comment_count (db : DB) (request : Request) :
  (forall template object_list profile total,
      ProfileView now annotate_comments_default db request
      = TemplateResponse template (profile_context object_list profile total) ->
      ProfileView_get_user db request = Ok profile
      /\ (user_posts db profile = [] -> total = None)
      /\ (user_posts db profile <> [] ->
          total
          = Some (list_sum (map (published_comments_on db)
                                (user_posts db profile)))))
  /\ (forall profile,
        usernames_unique db ->
        In profile (User_objects db) ->
        username profile = username_kwarg (kwargs request) ->
        method request = GET ->
        page request = 1 ->
        exists object_list,
          ProfileView now annotate_comments_default db request
          = TemplateResponse "blog/profile.html"
              (profile_context object_list profile
                 match user_posts db profile with
                 | [] => None
                 | _ :: _ =>
                     Some (list_sum (map (published_comments_on db)
                                         (user_posts db profile)))
                 end)).
Proof.
  split.
  - intros template object_list profile total.
    unfold ProfileView. intros Hresp.
    apply display_dispatch_template in Hresp.
    unfold ProfileView_get, ProfileView_get_queryset,
      ProfileView_get_context_data in Hresp.
    destruct (ProfileView_get_user db request) as [usr|e] eqn:Huser;
      simpl in Hresp; [|discriminate].
    destruct (paginate_queryset request _) as [page_obj|e];
      simpl in Hresp; [|discriminate].
    injection Hresp as _ _ <- <-.
    rewrite (map_ext _ _ (Count_comments_published_eq db)).
    split; [reflexivity|]. split.
    + now intros ->.
    + intros Hposts.
      destruct (user_posts db usr) as [|q l]; [contradiction|reflexivity].
  - intros profile Hunique Hin Hname Hget Hpage.
    assert (Huser : ProfileView_get_user db request = Ok profile).
    { unfold ProfileView_get_user, get_object_or_404. rewrite <- Hname.
      rewrite (filter_unique_key username String.eqb _ _ String.eqb_eq
                 Hunique Hin).
      reflexivity. }
    unfold ProfileView, display_dispatch, ProfileView_get,
      ProfileView_get_queryset, ProfileView_get_context_data.
    rewrite Hget, Huser. simpl.
    rewrite (paginate_queryset_first _ _ Hpage). simpl.
    rewrite (map_ext _ _ (Count_comments_published_eq db)).
    rewrite Sum_spec. eexists. reflexivity.
Qed.

End Properties.

(** ** The properties on the sample data *)

Lemma sample_db_keys_unique : primary_keys_unique sample_db.
Proof.
  unfold primary_keys_unique. simpl.
  repeat constructor; simpl; intuition discriminate.
Defined.

(** Bob may neither delete Alice's draft nor her comment. *)
Lemma mutation_only_by_author_witness :
  fst (@mutation_view comment_mixin_by_pk sample_db
         (sample_request (LoggedIn bob) POST (sample_kwargs 1 2 "" ""))
         DeletePost) = sample_db
  /\ fst (@mutation_view comment_mixin_by_pk sample_db
            (sample_request (LoggedIn bob) POST (sample_kwargs 2 2 "" ""))
            DeleteComment) = sample_db.
Proof.
  split.
  - apply (proj1 (@mutation_only_by_author comment_mixin_by_pk sample_db
                    (sample_request (LoggedIn bob) POST
                       (sample_kwargs 1 2 "" "")) DeletePost) 1);
      reflexivity.
  - apply (proj1 (@mutation_only_by_author comment_mixin_by_pk sample_db
                    (sample_request (LoggedIn bob) POST
                       (sample_kwargs 2 2 "" "")) DeleteComment) 1);
      reflexivity.
Defined.

(** C2 fails on the code: Bob asks for the first page of his own
    profile, and his twelfth post is not on the page he gets. *)
Lemma own_post_not_on_first_page :
  In (bobs_post 12) (Post_objects long_db)
  /\ is_user (post_author (bobs_post 12)) (LoggedIn bob) = true
  /\ exists object_list,
       ProfileView sample_now true long_db
         (sample_request (LoggedIn bob) GET (sample_kwargs 0 0 "" "bob"))
       = TemplateResponse "blog/profile.html"
           (profile_context object_list bob (Some 0))
       /\ List.length object_list = 10
       /\ ~ In (bobs_post 12) (map row_post object_list).
Proof.
  split; [|split; [reflexivity|]].
  - simpl. intuition.
  - eexists. split; [reflexivity|]. split; [reflexivity|].
    simpl. intros H.
    repeat (destruct H as [H | H]; [discriminate H|]). exact H.
Qed.

(** Alice gets her draft, on its page and on the first page of her
    profile. *)
Lemma author_sees_own_post_witness :
  publicly_visible sample_db sample_now draft = false
  /\ (exists comments,
        PostDetailView sample_now sample_db
          (sample_request (LoggedIn alice) GET (sample_kwargs 1 1 "" "alice"))
        = TemplateResponse "blog/detail.html" (detail_context draft comments))
  /\ exists object_list total,
       ProfileView sample_now true sample_db
         (sample_request (LoggedIn alice) GET (sample_kwargs 1 1 "" "alice"))
       = TemplateResponse "blog/profile.html"
           (profile_context object_list alice total)
       /\ In draft (map row_post object_list).
Proof.
  destruct (author_sees_own_post sample_now true sample_db
              (sample_request (LoggedIn alice) GET
                 (sample_kwargs 1 1 "" "alice"))
              draft sample_db_keys_unique (or_introl eq_refl) eq_refl
              eq_refl)
    as [Hdetail Hprofile].
  split; [reflexivity|]. split.
  - exact (proj2 (Hdetail eq_refl)).
  - exact (proj2 (proj2 (Hprofile alice eq_refl eq_refl))
             0 eq_refl eq_refl).
Defined.

(** C3 fails on the code: Bob asks for the page of [essay], on which his
    own comment [withheld] is unpublished, and the comment is not in the
    list rendered. *)
Lemma own_unpublished_comment_hidden :
  In withheld (Comment_objects sample_db)
  /\ comment_post withheld = post_pk essay
  /\ is_user (comment_author withheld) (LoggedIn bob) = true
  /\ PostDetailView sample_now sample_db
       (sample_request (LoggedIn bob) GET (sample_kwargs 2 1 "" ""))
     = TemplateResponse "blog/detail.html" (detail_context essay [reply])
  /\ ~ In withheld [reply].
Proof.
  repeat split; try reflexivity.
  - now left.
  - intros [H | []]. discriminate H.
Qed.

Lemma detail_comments_published_only_witness :
  PostDetailView sample_now sample_db
    (sample_request (LoggedIn bob) GET (sample_kwargs 2 1 "" ""))
  = TemplateResponse "blog/detail.html" (detail_context essay [reply])
  /\ (In reply [reply]
      <-> In reply (Comment_objects sample_db)
          /\ comment_post reply = post_pk essay
          /\ comment_is_published reply = true)
  /\ (In withheld [reply]
      <-> In withheld (Comment_objects sample_db)
          /\ comment_post withheld = post_pk essay
          /\ comment_is_published withheld = true).
Proof.
  split; [reflexivity|].
  split;
    exact (detail_comments_published_only sample_now sample_db
             (sample_request (LoggedIn bob) GET (sample_kwargs 2 1 "" ""))
             "blog/detail.html" essay [reply] eq_refl _).
Defined.

(** Bob, and an anonymous visitor, get 404 for Alice's draft. *)
Lemma hidden_post_is_404_witness :
  PostDetailView sample_now sample_db
    (sample_request (LoggedIn bob) GET (sample_kwargs 1 1 "" ""))
  = HttpResponseNotFound
  /\ PostDetailView sample_now sample_db
       (sample_request AnonymousUser GET (sample_kwargs 1 1 "" ""))
     = HttpResponseNotFound.
Proof.
  split.
  - exact (proj2 (hidden_post_is_404 sample_now sample_db
                    (sample_request (LoggedIn bob) GET
                       (sample_kwargs 1 1 "" ""))
                    draft sample_db_keys_unique (or_introl eq_refl)
                    eq_refl eq_refl eq_refl eq_refl)).
  - exact (proj2 (hidden_post_is_404 sample_now sample_db
                    (sample_request AnonymousUser GET
                       (sample_kwargs 1 1 "" ""))
                    draft sample_db_keys_unique (or_introl eq_refl)
                    eq_refl eq_refl eq_refl eq_refl)).
Defined.

Lemma category_page_published_only_witness :
  exists object_list,
    CategoryPostListView sample_now sample_db
      (sample_request AnonymousUser GET (sample_kwargs 0 0 "travel" ""))
    = TemplateResponse "blog/category.html"
        (category_context object_list travel)
    /\ object_list <> []
    /\ forall r, In r object_list -> post_is_published (row_post r) = true.
Proof.
  eexists. split; [reflexivity|]. split; [discriminate|].
  exact (proj2 (category_page_published_only sample_now sample_db
                  (sample_request AnonymousUser GET
                     (sample_kwargs 0 0 "travel" "")) eq_refl)
           _ _ _ eq_refl).
Defined.

(** Bob, logged in, posts to delete Alice's draft and is answered 403;
    his post to edit it is answered with a redirect to the draft. *)
Lemma non_author_delete_post_is_403_witness :
  Post_get_object sample_db
    (sample_request (LoggedIn bob) POST (sample_kwargs 1 1 "" ""))
  = Ok draft
  /\ DeletePostView sample_db
       (sample_request (LoggedIn bob) POST (sample_kwargs 1 1 "" ""))
     = (sample_db, HttpResponseForbidden)
  /\ EditPostView sample_db
       (sample_request (LoggedIn bob) POST (sample_kwargs 1 1 "" ""))
       forged_post_form
     = (sample_db, HttpResponseRedirect (url_post_detail 1)).
Proof.
  split; [reflexivity|].
  exact (non_author_delete_post_is_403 sample_db
           (sample_request (LoggedIn bob) POST (sample_kwargs 1 1 "" ""))
           forged_post_form draft eq_refl eq_refl eq_refl).
Defined.

(** C7 fails on the code: Bob cannot view Alice's draft, yet his comment
    on it is stored and he is sent on to the draft's page. *)
Lemma comment_on_hidden_post_created :
  PostDetailView sample_now sample_db
    (sample_request (LoggedIn bob) GET (sample_kwargs 1 0 "" ""))
  = HttpResponseNotFound
  /\ AddCommentView sample_now sample_db
       (sample_request (LoggedIn bob) POST (sample_kwargs 1 0 "" ""))
       forged_comment_form
     = (with_comments sample_db
          [withheld; reply;
           {| comment_pk := 3; comment_text := "hello"; comment_author := 2;
              comment_post := 1; comment_is_published := true;
              created_at := sample_now |}],
        HttpResponseRedirect (url_post_detail 1)).
Proof.
  split; reflexivity.
Qed.

Lemma comment_needs_existing_post_witness :
  (exists p, In p (Post_objects sample_db) /\ post_pk p = 1)
  /\ AddCommentView sample_now sample_db
       (sample_request (LoggedIn bob) POST (sample_kwargs 7 0 "" ""))
       forged_comment_form
     = (sample_db, HttpResponseNotFound).
Proof.
  split.
  - apply (proj1 (comment_needs_existing_post sample_now sample_db
                    (sample_request (LoggedIn bob) POST
                       (sample_kwargs 1 0 "" ""))
                    forged_comment_form eq_refl)).
    discriminate.
  - destruct (proj2 (comment_needs_existing_post sample_now sample_db
                       (sample_request (LoggedIn bob) POST
                          (sample_kwargs 7 0 "" ""))
                       forged_comment_form eq_refl))
      as [Hdb Hresp].
    + intros p [<- | [<- | []]]; discriminate.
    + specialize (Hresp (or_introl eq_refl) eq_refl).
      destruct (AddCommentView _ _ _ _) as [db' resp]. simpl in *.
      now rewrite Hdb, Hresp.
Defined.



(** Bob submits forms that name Alice as the author; what is stored
    names Bob. *)
Lemma created_object_author_is_requester_witness :
  pf_author forged_post_form = Some (user_pk alice)
  /\ cf_author forged_comment_form = Some (user_pk alice)
  /\ (exists p,
        Post_objects
          (fst (CreatePostView sample_db
                  (sample_request (LoggedIn bob) POST
                     (sample_kwargs 2 0 "" ""))
                  forged_post_form))
        = Post_objects sample_db ++ [p]
        /\ post_author p = user_pk bob)
  /\ (exists c,
        Comment_objects
          (fst (AddCommentView sample_now sample_db
                  (sample_request (LoggedIn bob) POST
                     (sample_kwargs 2 0 "" ""))
                  forged_comment_form))
        = Comment_objects sample_db ++ [c]
        /\ comment_author c = user_pk bob).
Proof.
  destruct (created_object_author_is_requester sample_now sample_db
              (sample_request (LoggedIn bob) POST (sample_kwargs 2 0 "" ""))
              bob forged_post_form forged_comment_form eq_refl)
    as [Hpost [Hcomment _]].
  split; [reflexivity|]. split; [reflexivity|]. split.
  - exact (Hpost eq_refl).
  - exact (Hcomment eq_refl).
Defined.

(** Alice's two posts carry one published comment; Bob has no posts. *)
Lemma profile_comment_count_witness :
  (exists object_list,
      ProfileView sample_now true sample_db
        (sample_request AnonymousUser GET (sample_kwargs 0 0 "" "alice"))
      = TemplateResponse "blog/profile.html"
          (profile_context object_list alice (Some 1)))
  /\ (exists object_list,
        ProfileView sample_now true sample_db
          (sample_request (LoggedIn alice) GET (sample_kwargs 0 0 "" "bob"))
        = TemplateResponse "blog/profile.html"
            (profile_context object_list bob None)).
Proof.
  split.
  - apply (proj2 (profile_comment_count sample_now true sample_db
                    (sample_request AnonymousUser GET
                       (sample_kwargs 0 0 "" "alice"))) alice);
      try reflexivity.
    + unfold usernames_unique. simpl.
      repeat constructor; simpl; intuition discriminate.
    + now left.
  - apply (proj2 (profile_comment_count sample_now true sample_db
                    (sample_request (LoggedIn alice) GET
                       (sample_kwargs 0 0 "" "bob"))) bob);
      try reflexivity.
    + unfold usernames_unique. simpl.
      repeat constructor; simpl; intuition discriminate.
    + right. now left.
Defined.

(** ** Further properties of the views *)

Lemma save_row_NoDup {A : Type} (pk : A -> nat) (obj : A) (table : list A) :
  NoDup (map pk table) -> NoDup (map pk (save_row pk obj table)).
Proof.
  intros Hnd. unfold save_row.
  destruct (existsb (fun r => pk r =? pk obj) table) eqn:E.
  - rewrite map_map.
    replace (map (fun r => pk (if pk r =? pk obj then obj else r)) table)
      with (map pk table); [exact Hnd|].
    apply map_ext. intros r.
    destruct (Nat.eqb_spec (pk r) (pk obj)); congruence.
  - rewrite map_app. simpl. apply NoDup_app; [exact Hnd| |].
    + constructor; [intros []|constructor].
    + intros k Hk [<- | []].
      apply in_map_iff in Hk. destruct Hk as [r [Hr Hin]].
      assert (Hex : existsb (fun r => pk r =? pk obj) table = true).
      { apply existsb_exists. exists r. split; [exact Hin|].
        now apply Nat.eqb_eq. }
      congruence.
Qed.

Lemma filter_NoDup_map {A : Type} (pk : A -> nat) (f : A -> bool)
    (table : list A) :
  NoDup (map pk table) -> NoDup (map pk (filter f table)).
Proof.
  induction table as [|a l IH]; simpl; intros Hnd; [constructor|].
  inversion Hnd as [|? ? Hnotin Hnd']; subst.
  destruct (f a); simpl; [|now apply IH].
  constructor; [|now apply IH].
  intros Hin. apply Hnotin.
  apply in_map_iff in Hin. destruct Hin as [r [Hr Hin]].
  apply filter_In in Hin. rewrite <- Hr. apply in_map. tauto.
Qed.

Lemma insert_NoDup (pks : list nat) :
  NoDup pks -> NoDup (pks ++ [next_pk pks]).
Proof.
  intros Hnd. apply NoDup_app; [exact Hnd| |].
  - constructor; [intros []|constructor].
  - intros k Hk [<- | []].
    pose proof (next_pk_fresh pks _ Hk) as Hfresh.
    now rewrite Nat.eqb_refl in Hfresh.
Qed.

(** Saving a row that is in the table puts it where the old one was:
    looking its key up gives the saved row, and the rows under other
    keys stay. *)
Lemma save_row_lookup {A : Type} (pk : A -> nat) (obj old : A)
    (table : list A) :
  NoDup (map pk table) -> In old table -> pk obj = pk old ->
  get_object_or_404 (save_row pk obj table) (fun r => pk r =? pk obj)
  = Ok obj
  /\ (forall r, In r table -> pk r <> pk obj ->
                In r (save_row pk obj table)).
Proof.
  intros Hnd Hin Hpk.
  assert (Hex : existsb (fun r => pk r =? pk obj) table = true).
  { apply existsb_exists. exists old. split; [exact Hin|].
    apply Nat.eqb_eq. now symmetry. }
  assert (Hobj : In obj (save_row pk obj table)).
  { unfold save_row. rewrite Hex. apply in_map_iff. exists old.
    split; [|exact Hin]. now rewrite <- Hpk, Nat.eqb_refl. }
  split.
  - apply get_object_or_404_pk; [|exact Hobj]. now apply save_row_NoDup.
  - intros r Hr Hne. unfold save_row. rewrite Hex. apply in_map_iff.
    exists r. split; [|exact Hr].
    destruct (Nat.eqb_spec (pk r) (pk obj)); congruence.
Qed.

Lemma delete_row_lookup {A : Type} (pk : A -> nat) (obj : A)
    (table : list A) :
  get_object_or_404 (delete_row pk obj table) (fun r => pk r =? pk obj)
  = Raise Http404
  /\ (forall r, In r table -> pk r <> pk obj ->
                In r (delete_row pk obj table)).
Proof.
  split.
  - apply get_object_or_404_none. intros r Hr.
    apply filter_In in Hr. destruct Hr as [_ Hr].
    now destruct (pk r =? pk obj).
  - intros r Hr Hne. apply filter_In. split; [exact Hr|].
    now destruct (Nat.eqb_spec (pk r) (pk obj)).
Qed.

Section MoreProperties.

Context (now : Z) (annotate_comments_default : bool) {mixin : CommentMixin}.

Lemma PostDetailView_get_object_spec (db : DB) (request : Request)
    (p : Post) :
  primary_keys_unique db ->
  In p (Post_objects db) ->
  post_id (kwargs request) = post_pk p ->
  PostDetailView_get_object now db request
  = if is_user (post_author p) (user request) || publicly_visible db now p
    then Ok p else Raise Http404.
Proof.
  intros Hpk Hin Hid.
  unfold PostDetailView_get_object.
  unfold get_post_queryset at 1. rewrite get_object_or_404_map. simpl.
  rewrite Hid, (get_object_or_404_pk post_pk _ p Hpk Hin). simpl.
  destruct (is_user (post_author p) (user request)); simpl; [reflexivity|].
  unfold get_post_queryset. simpl. rewrite get_object_or_404_map.
  destruct (publicly_visible db now p) eqn:Hvisible.
  - assert (Hvis : In p (filter (publicly_visible db now) (Post_objects db)))
      by (apply filter_In; now split).
    rewrite (get_object_or_404_pk post_pk _ p); [reflexivity| |exact Hvis].
    now apply filter_NoDup_map.
  - rewrite get_object_or_404_none; [reflexivity|].
    intros q Hq. apply filter_In in Hq. destruct Hq as [Hq Hqv].
    apply Nat.eqb_neq. intros Heq.
    rewrite (pk_determines_row post_pk _ _ _ Hpk Hq Hin Heq) in Hqv.
    congruence.
Qed.

(** X1. A post that passes the public-visibility predicate is returned
    to every requester of its detail page, its author or not, logged in
    or not; and a requester who is not its author gets it only then. *)
Theorem public_post_visible_to_all (db : DB) (request : Request) (p : Post) :
  primary_keys_unique db ->
  In p (Post_objects db) ->
  post_id (kwargs request) = post_pk p ->
  (publicly_visible db now p = true ->
   PostDetailView_get_object now db request = Ok p)
  /\ (is_user (post_author p) (user request) = false ->
      (PostDetailView_get_object now db request = Ok p
       <-> publicly_visible db now p = true)).
Proof.
  intros Hpk Hin Hid.
  rewrite (PostDetailView_get_object_spec db request p Hpk Hin Hid).
  split.
  - intros ->. now rewrite orb_true_r.
  - intros ->. simpl.
    destruct (publicly_visible db now p); split; congruence.
Qed.

(** X2. The post list of a profile asked for by anyone but the profiled
    user, anonymous visitors included, holds exactly the publicly
    visible posts of that user. *)
Theorem profile_visitor_sees_public_only (db : DB) (request : Request)
    (profile : User) (queryset : list PostRow) :
  ProfileView_get_user db request = Ok profile ->
  is_user (user_pk profile) (user request) = false ->
  ProfileView_get_queryset now annotate_comments_default db request
  = Ok queryset ->
  forall p,
    In p (map row_post queryset)
    <-> In p (Post_objects db)
        /\ post_author p = user_pk profile
        /\ publicly_visible db now p = true.
Proof.
  intros Huser Hother Hqs p.
  unfold ProfileView_get_queryset in Hqs. rewrite Huser in Hqs.
  simpl in Hqs. injection Hqs as <-.
  rewrite get_post_queryset_posts, Hother, orb_true_r.
  unfold user_posts. rewrite !filter_In, Nat.eqb_eq. tauto.
Qed.

(** X3. On a rendered category page the category of the context is a
    published one with the slug of the address, and every post listed
    belongs to it. *)
Theorem category_page_of_its_category (db : DB) (request : Request)
    (template : string) (object_list : list PostRow) (category : Category) :
  CategoryPostListView now db request
  = TemplateResponse template (category_context object_list category) ->
  slug category = category_slug (kwargs request)
  /\ category_is_published category = true
  /\ In category (Category_objects db)
  /\ forall r, In r object_list ->
               post_category (row_post r) = category_pk category
               /\ In (row_post r) (Post_objects db).
Proof.
  unfold CategoryPostListView. intros Hresp.
  apply display_dispatch_template in Hresp.
  unfold CategoryPostListView_get, CategoryPostListView_get_queryset,
    CategoryPostListView_get_context_data in Hresp.
  destruct (get_object_or_404 _ _) as [c|e] eqn:Hc; simpl in Hresp;
    [|discriminate].
  destruct (paginate_queryset request _) as [page_obj|e] eqn:Hpage;
    simpl in Hresp; [|discriminate].
  injection Hresp as _ <- <-.
  apply get_object_or_404_Ok in Hc. destruct Hc as [Hin Hlookup].
  apply andb_prop in Hlookup. destruct Hlookup as [Hslug Hpub].
  apply String.eqb_eq in Hslug.
  repeat split; try assumption;
    apply (paginate_queryset_incl _ _ _ Hpage) in H;
    apply (in_map row_post) in H;
    rewrite get_post_queryset_posts in H;
    apply filter_In in H; destruct H as [H _];
    apply filter_In in H; destruct H as [H Hcat].
  - now apply Nat.eqb_eq.
  - exact H.
Qed.

(** X4. A request of a visitor who is not logged in writes nothing,
    whichever of the seven views behind the login gate it addresses.  It
    is sent to the login page, except by the edit-post view, whose own
    [handle_no_permission] sends it to the detail page of the post named
    in the address (looked up or not), and by the comment views, which
    answer with the handler they inherit. *)
Theorem anonymous_never_writes (db : DB) (request : Request)
    (s : Submission) :
  user request = AnonymousUser ->
  submission_view now db request s
  = match s with
    | Mutate (EditPost _) =>
        (db, HttpResponseRedirect (url_post_detail (post_id (kwargs request))))
    | Mutate (EditComment _ | DeleteComment) =>
        commit db (unchanged db (CommentMixin_handle_no_permission request))
    | CreatePost _ | AddComment _ | EditProfile _ | Mutate DeletePost =>
        (db, HttpResponseRedirect url_login)
    end
  /\ fst (submission_view now db request s) = db.
Proof.
  intros Hanon.
  assert (Hview :
    submission_view now db request s
    = match s with
      | Mutate (EditPost _) =>
          (db, HttpResponseRedirect
                 (url_post_detail (post_id (kwargs request))))
      | Mutate (EditComment _ | DeleteComment) =>
          commit db (unchanged db (CommentMixin_handle_no_permission request))
      | CreatePost _ | AddComment _ | EditProfile _ | Mutate DeletePost =>
          (db, HttpResponseRedirect url_login)
      end).
  { destruct s as [f|f|f|[f| |f|]]; simpl;
      unfold CreatePostView, CreatePostView_dispatch,
        AddCommentView, AddCommentView_dispatch,
        EditProfileView, EditProfileView_dispatch,
        EditPostView, EditPostView_dispatch,
        DeletePostView, DeletePostView_dispatch,
        EditCommentView, EditCommentView_dispatch,
        DeleteCommentView, DeleteCommentView_dispatch,
        LoginRequiredMixin_dispatch, AccessMixin_handle_no_permission;
      rewrite Hanon; reflexivity. }
  split; [exact Hview|].
  rewrite Hview.
  destruct s as [f|f|f|[f| |f|]]; try reflexivity; apply commit_unchanged.
Qed.

(** What a view that writes needs from the request: a post or put with
    a valid form for the form views, a post or delete for the delete
    views. *)
Lemma form_dispatch_changed (db : DB) (request : Request)
    (get post : Result (DB * Response)) :
  fst (commit db get) = db ->
  fst (commit db (form_dispatch (pair db) request get post)) <> db ->
  (method request = POST \/ method request = PUT)
  /\ fst (commit db post) <> db.
Proof.
  unfold form_dispatch. intros Hget.
  destruct (method request); simpl; intros H; try contradiction;
    try (now split; [left|]); try (now split; [right|]).
Qed.

Lemma delete_dispatch_changed (db : DB) (request : Request)
    (get delete : Result (DB * Response)) :
  fst (commit db get) = db ->
  fst (commit db (delete_dispatch (pair db) request get delete)) <> db ->
  (method request = POST \/ method request = DELETE)
  /\ fst (commit db delete) <> db.
Proof.
  unfold delete_dispatch. intros Hget.
  destruct (method request); simpl; intros H; try contradiction;
    try (now split; [left|]); try (now split; [right|]).
Qed.

Lemma gates_changed {A : Type} (db : DB) (request : Request)
    (get_object : Result A) (author : A -> nat)
    (handle_no_permission : Result Response)
    (handler : Result (DB * Response)) :
  fst (commit db
         (LoginRequiredMixin_dispatch request
            (unchanged db handle_no_permission)
            (UserPassesTestMixin_dispatch
               (AuthorRequiredMixin_test_func get_object author request)
               (unchanged db handle_no_permission)
               handler))) <> db ->
  is_authenticated (user request) = true
  /\ fst (commit db handler) <> db.
Proof.
  unfold LoginRequiredMixin_dispatch, UserPassesTestMixin_dispatch,
    AuthorRequiredMixin_test_func.
  destruct (is_authenticated (user request)); simpl.
  - destruct get_object as [obj|e]; simpl; [|contradiction].
    destruct (is_user (author obj) (user request)); simpl.
    + now split.
    + intros H. exfalso. apply H. apply commit_unchanged.
  - intros H. exfalso. apply H. apply commit_unchanged.
Qed.

(** X5. A request changes the database only when its sender is logged
    in and it is a submission: POST or PUT with a form that validates
    for the create and edit views, POST or DELETE for the delete views.
    GET, HEAD, OPTIONS and the like never write, and neither does a form
    that fails validation. *)
Theorem writes_only_on_submission (db : DB) (request : Request)
    (s : Submission) :
  fst (submission_view now db request s) <> db ->
  is_authenticated (user request) = true
  /\ match s with
     | CreatePost form | Mutate (EditPost form) =>
         (method request = POST \/ method request = PUT)
         /\ pf_is_valid form = true
     | AddComment form | Mutate (EditComment form) =>
         (method request = POST \/ method request = PUT)
         /\ cf_is_valid form = true
     | EditProfile form =>
         (method request = POST \/ method request = PUT)
         /\ ef_is_valid form = true
     | Mutate DeletePost | Mutate DeleteComment =>
         method request = POST \/ method request = DELETE
     end.
Proof.
  destruct s as [f|f|f|[f| |f|]]; simpl.
  - unfold CreatePostView, CreatePostView_dispatch,
      LoginRequiredMixin_dispatch.
    destruct (is_authenticated (user request)); simpl;
      [|intros H; exfalso; apply H; apply commit_unchanged].
    intros H. apply form_dispatch_changed in H; [|reflexivity].
    destruct H as [Hm H]. split; [reflexivity|]. split; [exact Hm|].
    destruct (pf_is_valid f); [reflexivity|]. now exfalso; apply H.
  - unfold AddCommentView, AddCommentView_dispatch,
      LoginRequiredMixin_dispatch.
    destruct (is_authenticated (user request)); simpl;
      [|intros H; exfalso; apply H; apply commit_unchanged].
    intros H. apply form_dispatch_changed in H; [|reflexivity].
    destruct H as [Hm H]. split; [reflexivity|]. split; [exact Hm|].
    destruct (cf_is_valid f); [reflexivity|]. now exfalso; apply H.
  - unfold EditProfileView, EditProfileView_dispatch,
      LoginRequiredMixin_dispatch.
    destruct (is_authenticated (user request)); simpl;
      [|intros H; exfalso; apply H; apply commit_unchanged].
    intros H. apply form_dispatch_changed in H; [|reflexivity].
    destruct H as [Hm H]. split; [reflexivity|]. split; [exact Hm|].
    destruct (ef_is_valid f); [reflexivity|].
    exfalso; apply H. now destruct (EditProfileView_get_object request).
  - unfold EditPostView, EditPostView_dispatch. intros H.
    apply gates_changed in H. destruct H as [Hauth H].
    apply form_dispatch_changed in H;
      [|now destruct (Post_get_object db request)].
    destruct H as [Hm H]. split; [exact Hauth|]. split; [exact Hm|].
    destruct (pf_is_valid f); [reflexivity|].
    exfalso; apply H. now destruct (Post_get_object db request).
  - unfold DeletePostView, DeletePostView_dispatch. intros H.
    apply gates_changed in H. destruct H as [Hauth H].
    apply delete_dispatch_changed in H;
      [|now destruct (Post_get_object db request)].
    now split.
  - unfold EditCommentView, EditCommentView_dispatch. intros H.
    apply gates_changed in H. destruct H as [Hauth H].
    apply form_dispatch_changed in H;
      [|now destruct (CommentMixin_get_object db request)].
    destruct H as [Hm H]. split; [exact Hauth|]. split; [exact Hm|].
    destruct (cf_is_valid f); [reflexivity|].
    exfalso; apply H. now destruct (CommentMixin_get_object db request).
  - unfold DeleteCommentView, DeleteCommentView_dispatch. intros H.
    apply gates_changed in H. destruct H as [Hauth H].
    apply delete_dispatch_changed in H;
      [|now destruct (CommentMixin_get_object db request)].
    now split.
Qed.

(** X6. An edit-post or delete-post request of a logged-in user that
    names no existing post is answered with 404 and changes nothing,
    whatever its method: the authorship test looks the post up before
    any handler runs. *)
Theorem missing_post_mutation_is_404 (db : DB) (request : Request)
    (form : PostForm) :
  is_authenticated (user request) = true ->
  (forall p, In p (Post_objects db) ->
             post_pk p <> post_id (kwargs request)) ->
  EditPostView db request form = (db, HttpResponseNotFound)
  /\ DeletePostView db request = (db, HttpResponseNotFound).
Proof.
  intros Hauth Hnone.
  assert (H404 : Post_get_object db request = Raise Http404).
  { unfold Post_get_object. apply get_object_or_404_none.
    intros p Hp. apply Nat.eqb_neq. now apply Hnone. }
  unfold EditPostView, EditPostView_dispatch,
    DeletePostView, DeletePostView_dispatch,
    LoginRequiredMixin_dispatch, UserPassesTestMixin_dispatch,
    AuthorRequiredMixin_test_func.
  rewrite Hauth, H404. now split.
Qed.

Lemma is_user_authenticated (author : nat) (u : RequestUser) :
  is_user author u = true -> is_authenticated u = true.
Proof. now destruct u. Qed.

Lemma save_row_length {A : Type} (pk : A -> nat) (obj old : A)
    (table : list A) :
  In old table -> pk obj = pk old ->
  List.length (save_row pk obj table) = List.length table.
Proof.
  intros Hin Hpk. unfold save_row.
  replace (existsb (fun r => pk r =? pk obj) table) with true.
  - apply length_map.
  - symmetry. apply existsb_exists. exists old. split; [exact Hin|].
    apply Nat.eqb_eq. now symmetry.
Qed.

(** X7. When the author of a post submits a valid edit form, the post
    is replaced under its own key by the post with the form's fields:
    looking the key up afterwards gives the edited post, every other
    post and every comment is kept, no post is added, and the author is
    sent to the page of the post. *)
Theorem edit_post_round_trip (db : DB) (request : Request)
    (form : PostForm) (p : Post) :
  primary_keys_unique db ->
  In p (Post_objects db) ->
  post_id (kwargs request) = post_pk p ->
  is_user (post_author p) (user request) = true ->
  method request = POST \/ method request = PUT ->
  pf_is_valid form = true ->
  snd (EditPostView db request form)
  = HttpResponseRedirect (url_absolute (post_pk p))
  /\ Post_get_object (fst (EditPostView db request form)) request
     = Ok (PostForm_save_commit_false form p)
  /\ (forall q, In q (Post_objects db) -> post_pk q <> post_pk p ->
                In q (Post_objects (fst (EditPostView db request form))))
  /\ List.length (Post_objects (fst (EditPostView db request form)))
     = List.length (Post_objects db)
  /\ Comment_objects (fst (EditPostView db request form))
     = Comment_objects db.
Proof.
  intros Hpk Hin Hid Hauthor Hmethod Hvalid.
  assert (Hobj : Post_get_object db request = Ok p).
  { unfold Post_get_object. rewrite Hid. now apply get_object_or_404_pk. }
  assert (Hview : EditPostView db request form
                  = (Post_save db (PostForm_save_commit_false form p),
                     HttpResponseRedirect (url_absolute (post_pk p)))).
  { unfold EditPostView, EditPostView_dispatch,
      LoginRequiredMixin_dispatch, UserPassesTestMixin_dispatch,
      AuthorRequiredMixin_test_func.
    rewrite (is_user_authenticated _ _ Hauthor), Hobj. simpl.
    rewrite Hauthor. simpl.
    now rewrite (form_dispatch_post _ _ _ _ Hmethod), Hvalid. }
  rewrite Hview. simpl.
  destruct (save_row_lookup post_pk (PostForm_save_commit_false form p) p
              (Post_objects db) Hpk Hin eq_refl) as [Hlookup Hothers].
  split; [reflexivity|]. split; [|split; [|split]].
  - unfold Post_get_object. rewrite Hid. exact Hlookup.
  - exact Hothers.
  - now apply (save_row_length post_pk _ p).
  - reflexivity.
Qed.

(** X8. When the author of a post submits its deletion, the post is
    gone: its key is not found any more, by the edit and delete views as
    by the detail page (a 404 also for the author); the other posts are
    kept and nothing is added; and the author is sent to the own
    profile. *)
Theorem delete_post_round_trip (db : DB) (request : Request) (p : Post) :
  primary_keys_unique db ->
  In p (Post_objects db) ->
  post_id (kwargs request) = post_pk p ->
  is_user (post_author p) (user request) = true ->
  method request = POST \/ method request = DELETE ->
  snd (DeletePostView db request)
  = HttpResponseRedirect (url_profile (request_username (user request)))
  /\ Post_get_object (fst (DeletePostView db request)) request
     = Raise Http404
  /\ PostDetailView_get_object now (fst (DeletePostView db request)) request
     = Raise Http404
  /\ (forall q, In q (Post_objects db) -> post_pk q <> post_pk p ->
                In q (Post_objects (fst (DeletePostView db request))))
  /\ (forall q, In q (Post_objects (fst (DeletePostView db request))) ->
                In q (Post_objects db)).
Proof.
  intros Hpk Hin Hid Hauthor Hmethod.
  assert (Hobj : Post_get_object db request = Ok p).
  { unfold Post_get_object. rewrite Hid. now apply get_object_or_404_pk. }
  assert (Hview : DeletePostView db request
                  = (Post_delete db p,
                     HttpResponseRedirect
                       (url_profile (request_username (user request))))).
  { unfold DeletePostView, DeletePostView_dispatch,
      LoginRequiredMixin_dispatch, UserPassesTestMixin_dispatch,
      AuthorRequiredMixin_test_func.
    rewrite (is_user_authenticated _ _ Hauthor), Hobj. simpl.
    rewrite Hauthor. simpl. unfold delete_dispatch.
    now destruct Hmethod as [-> | ->]. }
  rewrite Hview. simpl.
  destruct (delete_row_lookup post_pk p (Post_objects db))
    as [Hlookup Hothers].
  split; [reflexivity|]. split; [|split; [|split]].
  - unfold Post_get_object. rewrite Hid. exact Hlookup.
  - unfold PostDetailView_get_object.
    unfold get_post_queryset at 1. rewrite get_object_or_404_map. simpl.
    rewrite Hid, Hlookup. reflexivity.
  - exact Hothers.
  - intros q Hq. unfold delete_row in Hq. apply filter_In in Hq. tauto.
Qed.

(** X9. A valid create-post submission of a logged-in user adds one
    post under a key no post had, with the fields of the form, written
    by the requester; the posts there before are untouched, the keys
    stay unique, the requester is sent to the own profile, and the
    requester's detail request for the new key returns the new post,
    published or not. *)
Theorem create_post_round_trip (db : DB) (request : Request) (usr : User)
    (form : PostForm) :
  primary_keys_unique db ->
  user request = LoggedIn usr ->
  method request = POST \/ method request = PUT ->
  pf_is_valid form = true ->
  exists p,
    CreatePostView db request form
    = (with_posts db (Post_objects db ++ [p]),
       HttpResponseRedirect (url_profile (username usr)))
    /\ ~ In (post_pk p) (map post_pk (Post_objects db))
    /\ primary_keys_unique (with_posts db (Post_objects db ++ [p]))
    /\ post_author p = user_pk usr
    /\ title p = pf_title form /\ text p = pf_text form
    /\ post_category p = pf_category form
    /\ pub_date p = pf_pub_date form
    /\ post_is_published p = pf_is_published form
    /\ forall request',
         user request' = LoggedIn usr ->
         post_id (kwargs request') = post_pk p ->
         PostDetailView_get_object now
           (with_posts db (Post_objects db ++ [p])) request'
         = Ok p.
Proof.
  intros Hpk Huser Hmethod Hvalid.
  exists {| post_pk := next_pk (map post_pk (Post_objects db));
            title := pf_title form; text := pf_text form;
            post_author := user_pk usr; post_category := pf_category form;
            pub_date := pf_pub_date form;
            post_is_published := pf_is_published form |}.
  split; [|split; [|split; [|repeat (split; [reflexivity|])]]].
  - unfold CreatePostView, CreatePostView_dispatch,
      LoginRequiredMixin_dispatch, CreatePostView_form_valid.
    rewrite Huser. simpl.
    rewrite (form_dispatch_post _ _ _ _ Hmethod), Hvalid. reflexivity.
  - simpl. intros Hin.
    pose proof (next_pk_fresh _ _ Hin) as Hfresh.
    now rewrite Nat.eqb_refl in Hfresh.
  - unfold primary_keys_unique. simpl. rewrite map_app. simpl.
    now apply insert_NoDup.
  - intros request' Huser' Hid'.
    erewrite PostDetailView_get_object_spec; [| | |exact Hid'].
    + rewrite Huser'. simpl. now rewrite Nat.eqb_refl.
    + unfold primary_keys_unique. simpl. rewrite map_app. simpl.
      now apply insert_NoDup.
    + simpl. apply in_or_app. right. now left.
Qed.

Lemma Post_save_keys (db : DB) (p : Post) :
  keys_unique db -> keys_unique (Post_save db p).
Proof.
  intros [Hp [Hc Hu]]. repeat split; try assumption.
  unfold primary_keys_unique. simpl. now apply save_row_NoDup.
Qed.

Lemma Post_delete_keys (db : DB) (p : Post) :
  keys_unique db -> keys_unique (Post_delete db p).
Proof.
  intros [Hp [Hc Hu]]. repeat split; try assumption.
  - unfold primary_keys_unique. simpl. now apply filter_NoDup_map.
  - unfold comment_keys_unique. simpl. now apply filter_NoDup_map.
Qed.

Lemma Post_insert_keys (db : DB) (p : Post) :
  keys_unique db -> keys_unique (fst (Post_insert db p)).
Proof.
  intros [Hp [Hc Hu]]. repeat split; try assumption.
  unfold primary_keys_unique. simpl. rewrite map_app. simpl.
  now apply insert_NoDup.
Qed.

Lemma Comment_save_keys (db : DB) (c : Comment) :
  keys_unique db -> keys_unique (Comment_save db c).
Proof.
  intros [Hp [Hc Hu]]. repeat split; try assumption.
  unfold comment_keys_unique. simpl. now apply save_row_NoDup.
Qed.

Lemma Comment_delete_keys (db : DB) (c : Comment) :
  keys_unique db -> keys_unique (Comment_delete db c).
Proof.
  intros [Hp [Hc Hu]]. repeat split; try assumption.
  unfold comment_keys_unique. simpl. now apply filter_NoDup_map.
Qed.

Lemma Comment_insert_keys (db : DB) (c : Comment) :
  keys_unique db -> keys_unique (fst (Comment_insert db c)).
Proof.
  intros [Hp [Hc Hu]]. repeat split; try assumption.
  unfold comment_keys_unique. simpl. rewrite map_app. simpl.
  now apply insert_NoDup.
Qed.

Lemma User_save_keys (db : DB) (u : User) :
  keys_unique db -> keys_unique (User_save db u).
Proof.
  intros [Hp [Hc Hu]]. repeat split; try assumption.
  unfold user_keys_unique. simpl. now apply save_row_NoDup.
Qed.

Lemma login_gate_keys (db : DB) (request : Request)
    (handle_no_permission : Result Response)
    (handler : Result (DB * Response)) :
  keys_unique db ->
  keys_unique (fst (commit db handler)) ->
  keys_unique
    (fst (commit db
            (LoginRequiredMixin_dispatch request
               (unchanged db handle_no_permission) handler))).
Proof.
  intros Hdb Hhandler. unfold LoginRequiredMixin_dispatch.
  destruct (is_authenticated (user request)); simpl; [exact Hhandler|].
  now rewrite commit_unchanged.
Qed.

Lemma author_gate_keys {A : Type} (db : DB) (request : Request)
    (get_object : Result A) (author : A -> nat)
    (handle_no_permission : Result Response)
    (handler : Result (DB * Response)) :
  keys_unique db ->
  keys_unique (fst (commit db handler)) ->
  keys_unique
    (fst (commit db
            (UserPassesTestMixin_dispatch
               (AuthorRequiredMixin_test_func get_object author request)
               (unchanged db handle_no_permission) handler))).
Proof.
  intros Hdb Hhandler.
  unfold UserPassesTestMixin_dispatch, AuthorRequiredMixin_test_func.
  destruct get_object as [obj|e]; simpl; [|exact Hdb].
  destruct (is_user (author obj) (user request)); simpl; [exact Hhandler|].
  now rewrite commit_unchanged.
Qed.

Lemma form_dispatch_keys (db : DB) (request : Request)
    (get post : Result (DB * Response)) :
  keys_unique db ->
  keys_unique (fst (commit db get)) ->
  keys_unique (fst (commit db post)) ->
  keys_unique (fst (commit db (form_dispatch (pair db) request get post))).
Proof.
  intros Hdb Hget Hpost. unfold form_dispatch.
  now destruct (method request).
Qed.

Lemma delete_dispatch_keys (db : DB) (request : Request)
    (get delete : Result (DB * Response)) :
  keys_unique db ->
  keys_unique (fst (commit db get)) ->
  keys_unique (fst (commit db delete)) ->
  keys_unique
    (fst (commit db (delete_dispatch (pair db) request get delete))).
Proof.
  intros Hdb Hget Hdelete. unfold delete_dispatch.
  now destruct (method request).
Qed.

(** X10. Every view behind the login gate keeps the primary keys of
    the post, comment and user tables unique, whatever the request and
    the form: creation picks a key no row has, an edit writes under the
    key of the row it read, and a deletion only removes rows. *)
Theorem views_keep_keys_unique (db : DB) (request : Request)
    (s : Submission) :
  keys_unique db ->
  keys_unique (fst (submission_view now db request s)).
Proof.
  intros Hdb.
  destruct s as [f|f|f|[f| |f|]]; simpl;
    [unfold CreatePostView, CreatePostView_dispatch
    |unfold AddCommentView, AddCommentView_dispatch
    |unfold EditProfileView, EditProfileView_dispatch
    |unfold EditPostView, EditPostView_dispatch
    |unfold DeletePostView, DeletePostView_dispatch
    |unfold EditCommentView, EditCommentView_dispatch
    |unfold DeleteCommentView, DeleteCommentView_dispatch];
    apply login_gate_keys; try exact Hdb;
    try (apply author_gate_keys; try exact Hdb);
    try (apply form_dispatch_keys; try exact Hdb);
    try (apply delete_dispatch_keys; try exact Hdb).
  - unfold CreatePostView_form_valid.
    destruct (pf_is_valid f), (user request) as [|usr]; simpl;
      try exact Hdb.
    exact (Post_insert_keys db
             (Post_set_author (PostForm_save_commit_false f Post_new)
                (user_pk usr)) Hdb).
  - unfold AddCommentView_form_valid.
    destruct (cf_is_valid f); [|exact Hdb].
    destruct (get_object_or_404 _ _) as [p|e]; simpl; [|exact Hdb].
    destruct (user request) as [|usr]; simpl; [exact Hdb|].
    apply Comment_save_keys.
    exact (Comment_insert_keys db
             (Comment_set_author
                (Comment_set_post
                   (CommentForm_save_commit_false f (Comment_new now))
                   (post_pk p))
                (user_pk usr)) Hdb).
  - destruct (EditProfileView_get_object request) as [|usr]; simpl;
      [exact Hdb|].
    destruct (ef_is_valid f); simpl; [|exact Hdb].
    now apply User_save_keys.
  - now destruct (Post_get_object db request).
  - destruct (Post_get_object db request) as [p|e]; simpl; [|exact Hdb].
    destruct (pf_is_valid f); simpl; [|exact Hdb].
    now apply Post_save_keys.
  - now destruct (Post_get_object db request).
  - destruct (Post_get_object db request) as [p|e]; simpl; [|exact Hdb].
    now apply Post_delete_keys.
  - now destruct (CommentMixin_get_object db request).
  - destruct (CommentMixin_get_object db request) as [c|e]; simpl;
      [|exact Hdb].
    destruct (cf_is_valid f); simpl; [|exact Hdb].
    now apply Comment_save_keys.
  - now destruct (CommentMixin_get_object db request).
  - destruct (CommentMixin_get_object db request) as [c|e]; simpl;
      [|exact Hdb].
    now apply Comment_delete_keys.
Qed.

(** X11. A valid add-comment submission of a logged-in user that names
    an existing post stores one comment, under a key no comment had,
    with the text of the form, attached to the post of the address; it
    joins the comments of that post at the end, the comments of every
    other post are what they were, and the sender goes to the page of
    the post. *)
Theorem add_comment_attaches_to_post (db : DB) (request : Request)
    (usr : User) (form : CommentForm) (p : Post) :
  primary_keys_unique db ->
  In p (Post_objects db) ->
  post_id (kwargs request) = post_pk p ->
  user request = LoggedIn usr ->
  method request = POST \/ method request = PUT ->
  cf_is_valid form = true ->
  exists c,
    AddCommentView now db request form
    = (with_comments db (Comment_objects db ++ [c]),
       HttpResponseRedirect (url_post_detail (post_pk p)))
    /\ comment_post c = post_pk p
    /\ comment_text c = cf_text form
    /\ ~ In (comment_pk c) (map comment_pk (Comment_objects db))
    /\ post_comments (with_comments db (Comment_objects db ++ [c])) p
       = post_comments db p ++ [c]
    /\ forall q, post_pk q <> post_pk p ->
                 post_comments (with_comments db (Comment_objects db ++ [c])) q
                 = post_comments db q.
Proof.
  intros Hpk Hin Hid Huser Hmethod Hvalid.
  exists {| comment_pk := next_pk (map comment_pk (Comment_objects db));
            comment_text := cf_text form;
            comment_author := user_pk usr;
            comment_post := post_pk p;
            comment_is_published := comment_is_published (Comment_new now);
            created_at := created_at (Comment_new now) |}.
  split; [|split; [reflexivity|split; [reflexivity|split; [|split]]]].
  - unfold AddCommentView, AddCommentView_dispatch,
      LoginRequiredMixin_dispatch, AddCommentView_form_valid.
    rewrite Huser. simpl.
    unfold AddCommentView_get_success_url.
    rewrite (form_dispatch_post _ _ _ _ Hmethod), Hvalid, Hid.
    rewrite (get_object_or_404_pk post_pk _ p Hpk Hin). simpl.
    unfold Comment_save, with_comments. simpl.
    rewrite save_row_inserted by reflexivity. reflexivity.
  - simpl. intros Hc.
    pose proof (next_pk_fresh _ _ Hc) as Hfresh.
    now rewrite Nat.eqb_refl in Hfresh.
  - unfold post_comments. simpl. rewrite filter_app. simpl.
    now rewrite Nat.eqb_refl.
  - intros q Hq. unfold post_comments. simpl. rewrite filter_app. simpl.
    destruct (Nat.eqb_spec (post_pk p) (post_pk q)) as [Heq|_];
      [now symmetry in Heq | apply app_nil_r].
Qed.

Lemma ProfileView_rendered (db : DB) (request : Request)
    (template : string) (object_list : list PostRow) (profile : User)
    (total : option nat) :
  ProfileView now annotate_comments_default db request
  = TemplateResponse template (profile_context object_list profile total) ->
  ProfileView_get_user db request = Ok profile
  /\ total = Sum (map (Count_comments_published db) (user_posts db profile))
  /\ exists queryset,
       ProfileView_get_queryset now annotate_comments_default db request
       = Ok queryset
       /\ paginate_queryset request queryset = Ok object_list.
Proof.
  unfold ProfileView. intros Hresp.
  apply display_dispatch_template in Hresp.
  unfold ProfileView_get, ProfileView_get_context_data in Hresp.
  destruct (ProfileView_get_queryset now annotate_comments_default db request)
    as [queryset|e] eqn:Hqs; simpl in Hresp; [|discriminate].
  destruct (paginate_queryset request queryset) as [page_obj|e] eqn:Hpage;
    simpl in Hresp; [|discriminate].
  destruct (ProfileView_get_user db request) as [usr|e]; simpl in Hresp;
    [|discriminate].
  injection Hresp as _ <- <- <-.
  split; [reflexivity|]. split; [reflexivity|].
  exists queryset. now split.
Qed.

(** X12. The comment count of a profile page does not depend on who
    asks for the page, nor on the page number: two rendered pages of the
    same user name show the same user and the same count, also when the
    post lists differ because one requester is the profiled user and
    the other is not. *)
Theorem profile_comment_count_same_for_all (db : DB)
    (request1 request2 : Request) (template1 template2 : string)
    (object_list1 object_list2 : list PostRow) (profile1 profile2 : User)
    (total1 total2 : option nat) :
  username_kwarg (kwargs request1) = username_kwarg (kwargs request2) ->
  ProfileView now annotate_comments_default db request1
  = TemplateResponse template1
      (profile_context object_list1 profile1 total1) ->
  ProfileView now annotate_comments_default db request2
  = TemplateResponse template2
      (profile_context object_list2 profile2 total2) ->
  profile1 = profile2 /\ total1 = total2.
Proof.
  intros Hname H1 H2.
  apply ProfileView_rendered in H1. destruct H1 as [Hu1 [-> _]].
  apply ProfileView_rendered in H2. destruct H2 as [Hu2 [-> _]].
  unfold ProfileView_get_user in Hu1, Hu2. rewrite Hname in Hu1.
  rewrite Hu1 in Hu2. injection Hu2 as <-. now split.
Qed.

Lemma paginate_queryset_covers {A : Type} (request : Request)
    (queryset : list A) (i : nat) (x : A) :
  nth_error queryset i = Some x ->
  exists page_obj,
    paginate_queryset (with_page request (i / paginate_by + 1)) queryset
    = Ok page_obj
    /\ In x page_obj.
Proof.
  intros Hnth.
  assert (Hlt : i < List.length queryset)
    by (apply nth_error_Some; congruence).
  unfold paginate_queryset, num_pages, paginate_by, with_page. cbn [page].
  assert (Hdiv : (i + 1 * 10) / 10 = i / 10 + 1)
    by (apply Nat.div_add; discriminate).
  assert (Hle : (i + 1 * 10) / 10 <= (List.length queryset + 10 - 1) / 10)
    by (apply Nat.Div0.div_le_mono; lia).
  replace ((1 <=? i / 10 + 1)
           && (i / 10 + 1
               <=? Nat.max 1 ((List.length queryset + 10 - 1) / 10)))
    with true.
  2:{ symmetry. apply andb_true_intro. split; apply Nat.leb_le; lia. }
  eexists. split; [reflexivity|].
  apply (nth_error_In _ (i mod 10)).
  rewrite nth_error_firstn.
  replace (i mod 10 <? 10) with true.
  2:{ symmetry. apply Nat.ltb_lt. apply Nat.mod_upper_bound. discriminate. }
  rewrite nth_error_skipn.
  replace ((i / 10 + 1 - 1) * 10 + i mod 10) with i; [exact Hnth|].
  pose proof (Nat.div_mod_eq i 10). lia.
Qed.

(** X13. Every post of a logged-in user is on some page of the user's
    own profile, published or not: the page whose number is the rank of
    the post among the user's posts divided by ten, plus one, is
    rendered and lists the post. *)
Theorem own_post_on_some_profile_page (db : DB) (request : Request)
    (profile : User) (p : Post) :
  usernames_unique db ->
  In profile (User_objects db) ->
  username profile = username_kwarg (kwargs request) ->
  is_user (user_pk profile) (user request) = true ->
  method request = GET ->
  In p (Post_objects db) ->
  post_author p = user_pk profile ->
  exists n object_list total,
    ProfileView now annotate_comments_default db (with_page request n)
    = TemplateResponse "blog/profile.html"
        (profile_context object_list profile total)
    /\ In p (map row_post object_list).
Proof.
  intros Hunique Hin Hname Hself Hget Hp Hauthor.
  assert (Huser : forall n,
             ProfileView_get_user db (with_page request n) = Ok profile).
  { intros n. unfold ProfileView_get_user, get_object_or_404. simpl.
    rewrite <- Hname.
    now rewrite (filter_unique_key username String.eqb _ _ String.eqb_eq
                   Hunique Hin). }
  assert (Hmine : In p (user_posts db profile)).
  { apply filter_In. split; [exact Hp|]. now apply Nat.eqb_eq. }
  apply In_nth_error in Hmine. destruct Hmine as [i Hi].
  pose (queryset := get_post_queryset db now (user_posts db profile) false
                      annotate_comments_default).
  assert (Hrow : exists r, nth_error queryset i = Some r /\ row_post r = p).
  { unfold queryset, get_post_queryset. cbv beta iota zeta.
    rewrite nth_error_map, Hi. eexists. split; reflexivity. }
  destruct Hrow as [r [Hrow Hr]].
  destruct (paginate_queryset_covers request queryset i r Hrow)
    as [page_obj [Hpage Hin_page]].
  exists (i / paginate_by + 1), page_obj.
  eexists. split.
  - unfold ProfileView, display_dispatch, ProfileView_get,
      ProfileView_get_queryset, ProfileView_get_context_data.
    change (method (with_page request (i / paginate_by + 1)))
      with (method request).
    change (user (with_page request (i / paginate_by + 1)))
      with (user request).
    rewrite Hget, !Huser. cbn [bind].
    rewrite Hself, (is_user_authenticated _ _ Hself). cbn [negb orb].
    fold queryset. rewrite Hpage. reflexivity.
  - apply in_map_iff. exists r. now split.
Qed.

Lemma save_row_In {A : Type} (pk : A -> nat) (obj : A) (table : list A) :
  In obj (save_row pk obj table).
Proof.
  unfold save_row.
  destruct (existsb (fun r => pk r =? pk obj) table) eqn:E.
  - apply existsb_exists in E. destruct E as [r [Hr Heq]].
    apply in_map_iff. exists r. split; [|exact Hr]. now rewrite Heq.
  - apply in_or_app. right. now left.
Qed.

Lemma save_row_others {A : Type} (pk : A -> nat) (obj : A) (table : list A)
    (r : A) :
  In r table -> pk r <> pk obj -> In r (save_row pk obj table).
Proof.
  intros Hr Hne. unfold save_row.
  destruct (existsb (fun r => pk r =? pk obj) table).
  - apply in_map_iff. exists r. split; [|exact Hr].
    now destruct (Nat.eqb_spec (pk r) (pk obj)).
  - apply in_or_app. now left.
Qed.

(** X14. An edit-profile request touches the row of the requesting
    user and nothing else: posts and comments are what they were and
    every other user's row is kept.  A valid submission stores the
    requester's row with the form's name under the same key and sends
    the requester to the profile under the name just saved, where the
    profile page finds the saved row. *)
Theorem edit_profile_own_row_only (db : DB) (request : Request)
    (form : EditProfileForm) :
  Post_objects (fst (EditProfileView db request form)) = Post_objects db
  /\ Comment_objects (fst (EditProfileView db request form))
     = Comment_objects db
  /\ (forall u, In u (User_objects db) ->
                is_user (user_pk u) (user request) = false ->
                In u (User_objects (fst (EditProfileView db request form))))
  /\ (forall usr,
        user request = LoggedIn usr ->
        method request = POST \/ method request = PUT ->
        ef_is_valid form = true ->
        EditProfileView db request form
        = (User_save db (EditProfileForm_save_commit_false form usr),
           HttpResponseRedirect
             (url_profile
                (username (EditProfileForm_save_commit_false form usr))))
        /\ user_pk (EditProfileForm_save_commit_false form usr)
           = user_pk usr
        /\ In (EditProfileForm_save_commit_false form usr)
              (User_objects (fst (EditProfileView db request form)))
        /\ forall request',
             usernames_unique (fst (EditProfileView db request form)) ->
             username_kwarg (kwargs request')
             = username (EditProfileForm_save_commit_false form usr) ->
             ProfileView_get_user (fst (EditProfileView db request form))
               request'
             = Ok (EditProfileForm_save_commit_false form usr)).
Proof.
  assert (Hcases :
    fst (EditProfileView db request form) = db
    \/ exists usr, user request = LoggedIn usr
         /\ fst (EditProfileView db request form)
            = User_save db (EditProfileForm_save_commit_false form usr)).
  { unfold EditProfileView, EditProfileView_dispatch,
      LoginRequiredMixin_dispatch, AccessMixin_handle_no_permission,
      EditProfileView_get_object, form_dispatch.
    destruct (user request) as [|usr]; simpl; [now left|].
    destruct (method request), (ef_is_valid form); simpl;
      try (now left); right; exists usr; now split. }
  split; [|split; [|split]].
  - destruct Hcases as [-> | [usr [_ ->]]]; reflexivity.
  - destruct Hcases as [-> | [usr [_ ->]]]; reflexivity.
  - intros u Hu Hother.
    destruct Hcases as [-> | [usr [Huser ->]]]; [exact Hu|].
    simpl. apply save_row_others; [exact Hu|].
    rewrite Huser in Hother. simpl in *.
    now apply Nat.eqb_neq.
  - intros usr Huser Hmethod Hvalid.
    assert (Hview : EditProfileView db request form
                    = (User_save db (EditProfileForm_save_commit_false form usr),
                       HttpResponseRedirect
                         (url_profile
                            (username
                               (EditProfileForm_save_commit_false form usr))))).
    { unfold EditProfileView, EditProfileView_dispatch,
        LoginRequiredMixin_dispatch, EditProfileView_get_object.
      rewrite Huser. simpl.
      now rewrite (form_dispatch_post _ _ _ _ Hmethod), Hvalid. }
    rewrite Hview. simpl fst.
    split; [reflexivity|]. split; [reflexivity|]. split.
    + simpl. apply save_row_In.
    + intros request' Hunique Hname.
      unfold ProfileView_get_user, get_object_or_404. rewrite Hname.
      rewrite (filter_unique_key username String.eqb _ _ String.eqb_eq
                 Hunique); [reflexivity|].
      simpl. apply save_row_In.
Qed.

Lemma paginate_queryset_length {A : Type} (request : Request)
    (queryset page_obj : list A) :
  paginate_queryset request queryset = Ok page_obj ->
  List.length page_obj <= paginate_by.
Proof.
  unfold paginate_queryset.
  destruct ((1 <=? page request) && (page request <=? num_pages queryset));
    [|discriminate].
  intros H.
  assert (Heq : page_obj
                = firstn paginate_by
                    (skipn ((page request - 1) * paginate_by) queryset))
    by congruence.
  rewrite Heq. apply firstn_le_length.
Qed.

(** X15. A rendered category page and a rendered profile page list at
    most ten posts, and a request for page 0 is never rendered. *)
Theorem listing_pages_hold_ten (db : DB) (request : Request)
    (template : string) (object_list : list PostRow) :
  (forall category,
      CategoryPostListView now db request
      = TemplateResponse template (category_context object_list category) ->
      List.length object_list <= 10 /\ page request <> 0)
  /\ (forall profile total,
        ProfileView now annotate_comments_default db request
        = TemplateResponse template
            (profile_context object_list profile total) ->
        List.length object_list <= 10 /\ page request <> 0).
Proof.
  assert (Hpage : forall queryset : list PostRow,
             paginate_queryset request queryset = Ok object_list ->
             List.length object_list <= 10 /\ page request <> 0).
  { intros queryset Hpage. split.
    - exact (paginate_queryset_length _ _ _ Hpage).
    - unfold paginate_queryset in Hpage. intros Hzero.
      rewrite Hzero in Hpage. discriminate. }
  split.
  - intros category Hresp. unfold CategoryPostListView in Hresp.
    apply display_dispatch_template in Hresp.
    unfold CategoryPostListView_get,
      CategoryPostListView_get_context_data in Hresp.
    destruct (CategoryPostListView_get_queryset now db request)
      as [queryset|e]; simpl in Hresp; [|discriminate].
    destruct (paginate_queryset request queryset) as [page_obj|e] eqn:Hp;
      simpl in Hresp; [|discriminate].
    destruct (get_object_or_404 _ _) as [c|e]; simpl in Hresp;
      [|discriminate].
    injection Hresp as _ <- _. exact (Hpage _ Hp).
  - intros profile total Hresp.
    apply ProfileView_rendered in Hresp.
    destruct Hresp as [_ [_ [queryset [_ Hp]]]]. exact (Hpage _ Hp).
Qed.

End MoreProperties.

(** ** The further properties on the sample data *)

Lemma sample_db_all_keys_unique : keys_unique sample_db.
Proof.
  repeat split; unfold primary_keys_unique, comment_keys_unique,
    user_keys_unique; simpl;
    repeat constructor; simpl; intuition discriminate.
Defined.

Lemma long_db_usernames_unique : usernames_unique long_db.
Proof.
  unfold usernames_unique. simpl.
  repeat constructor; simpl; intuition discriminate.
Defined.

(** An anonymous visitor gets the public [essay]. *)
Lemma public_post_visible_to_all_witness :
  publicly_visible sample_db sample_now essay = true
  /\ PostDetailView_get_object sample_now sample_db
       (sample_request AnonymousUser GET (sample_kwargs 2 0 "" ""))
     = Ok essay.
Proof.
  split; [reflexivity|].
  apply (proj1 (public_post_visible_to_all sample_now sample_db
                  (sample_request AnonymousUser GET (sample_kwargs 2 0 "" ""))
                  essay sample_db_keys_unique
                  (or_intror (or_introl eq_refl)) eq_refl)).
  reflexivity.
Defined.

(** Bob finds [essay] on Alice's profile, and not [draft]. *)
Lemma profile_visitor_sees_public_only_witness :
  exists queryset,
    ProfileView_get_queryset sample_now true sample_db
      (sample_request (LoggedIn bob) GET (sample_kwargs 0 0 "" "alice"))
    = Ok queryset
    /\ In essay (map row_post queryset)
    /\ ~ In draft (map row_post queryset).
Proof.
  eexists. split; [reflexivity|].
  pose proof (profile_visitor_sees_public_only sample_now true sample_db
                (sample_request (LoggedIn bob) GET
                   (sample_kwargs 0 0 "" "alice"))
                alice _ eq_refl eq_refl eq_refl) as Hqs.
  split.
  - apply Hqs. split; [right; now left|]. now split.
  - intros Hin. apply Hqs in Hin. destruct Hin as [_ [_ Hvisible]].
    discriminate Hvisible.
Defined.

Lemma category_page_of_its_category_witness :
  exists object_list,
    CategoryPostListView sample_now sample_db
      (sample_request AnonymousUser GET (sample_kwargs 0 0 "travel" ""))
    = TemplateResponse "blog/category.html"
        (category_context object_list travel)
    /\ object_list <> []
    /\ forall r, In r object_list ->
                 post_category (row_post r) = category_pk travel
                 /\ In (row_post r) (Post_objects sample_db).
Proof.
  eexists. split; [reflexivity|]. split; [discriminate|].
  exact (proj2 (proj2 (proj2
           (category_page_of_its_category sample_now sample_db
              (sample_request AnonymousUser GET
                 (sample_kwargs 0 0 "travel" ""))
              _ _ _ eq_refl)))).
Defined.

(** Not logged in: the new post is not stored, and the edit of Alice's
    draft ends on the draft's page. *)
Lemma anonymous_never_writes_witness :
  CreatePostView sample_db
    (sample_request AnonymousUser POST (sample_kwargs 1 0 "" ""))
    forged_post_form
  = (sample_db, HttpResponseRedirect url_login)
  /\ EditPostView sample_db
       (sample_request AnonymousUser POST (sample_kwargs 1 0 "" ""))
       forged_post_form
     = (sample_db, HttpResponseRedirect (url_post_detail 1)).
Proof.
  split.
  - exact (proj1 (@anonymous_never_writes sample_now comment_mixin_by_pk
                    sample_db
                    (sample_request AnonymousUser POST
                       (sample_kwargs 1 0 "" ""))
                    (CreatePost forged_post_form) eq_refl)).
  - exact (proj1 (@anonymous_never_writes sample_now comment_mixin_by_pk
                    sample_db
                    (sample_request AnonymousUser POST
                       (sample_kwargs 1 0 "" ""))
                    (Mutate (EditPost forged_post_form)) eq_refl)).
Defined.

Lemma writes_only_on_submission_witness :
  fst (CreatePostView sample_db
         (sample_request (LoggedIn bob) POST (sample_kwargs 0 0 "" ""))
         forged_post_form) <> sample_db
  /\ is_authenticated (LoggedIn bob) = true
  /\ (POST = POST \/ POST = PUT)
  /\ pf_is_valid forged_post_form = true.
Proof.
  assert (Hchanged :
    fst (CreatePostView sample_db
           (sample_request (LoggedIn bob) POST (sample_kwargs 0 0 "" ""))
           forged_post_form) <> sample_db) by discriminate.
  split; [exact Hchanged|].
  exact (@writes_only_on_submission sample_now comment_mixin_by_pk sample_db
           (sample_request (LoggedIn bob) POST (sample_kwargs 0 0 "" ""))
           (CreatePost forged_post_form) Hchanged).
Defined.

Lemma missing_post_mutation_is_404_witness :
  EditPostView sample_db
    (sample_request (LoggedIn bob) GET (sample_kwargs 7 0 "" ""))
    forged_post_form
  = (sample_db, HttpResponseNotFound)
  /\ DeletePostView sample_db
       (sample_request (LoggedIn bob) GET (sample_kwargs 7 0 "" ""))
     = (sample_db, HttpResponseNotFound).
Proof.
  apply (missing_post_mutation_is_404 sample_db
           (sample_request (LoggedIn bob) GET (sample_kwargs 7 0 "" ""))
           forged_post_form eq_refl).
  intros p [<- | [<- | []]]; discriminate.
Defined.

(** Alice edits her draft: the key 1 now holds the post of the form,
    and [essay] is still there. *)
Lemma edit_post_round_trip_witness :
  Post_get_object
    (fst (EditPostView sample_db
            (sample_request (LoggedIn alice) POST (sample_kwargs 1 0 "" ""))
            forged_post_form))
    (sample_request (LoggedIn alice) POST (sample_kwargs 1 0 "" ""))
  = Ok (PostForm_save_commit_false forged_post_form draft)
  /\ In essay
       (Post_objects
          (fst (EditPostView sample_db
                  (sample_request (LoggedIn alice) POST
                     (sample_kwargs 1 0 "" ""))
                  forged_post_form))).
Proof.
  destruct (edit_post_round_trip sample_db
              (sample_request (LoggedIn alice) POST (sample_kwargs 1 0 "" ""))
              forged_post_form draft sample_db_keys_unique
              (or_introl eq_refl) eq_refl eq_refl (or_introl eq_refl)
              eq_refl)
    as [_ [Hlookup [Hothers _]]].
  split; [exact Hlookup|].
  apply Hothers; [right; now left | discriminate].
Defined.

(** Alice deletes her draft: nobody finds it any more, herself
    included. *)
Lemma delete_post_round_trip_witness :
  snd (DeletePostView sample_db
         (sample_request (LoggedIn alice) POST (sample_kwargs 1 0 "" "")))
  = HttpResponseRedirect (url_profile "alice")
  /\ PostDetailView_get_object sample_now
       (fst (DeletePostView sample_db
               (sample_request (LoggedIn alice) POST
                  (sample_kwargs 1 0 "" ""))))
       (sample_request (LoggedIn alice) POST (sample_kwargs 1 0 "" ""))
     = Raise Http404.
Proof.
  destruct (delete_post_round_trip sample_now sample_db
              (sample_request (LoggedIn alice) POST (sample_kwargs 1 0 "" ""))
              draft sample_db_keys_unique
              (or_introl eq_refl) eq_refl eq_refl (or_introl eq_refl))
    as [Hresp [_ [Hdetail _]]].
  split; [exact Hresp | exact Hdetail].
Defined.

(** Bob stores a post that is not published and gets it back under the
    new key 3. *)
Lemma create_post_round_trip_witness :
  exists p,
    CreatePostView sample_db
      (sample_request (LoggedIn bob) POST (sample_kwargs 0 0 "" ""))
      unpublished_post_form
    = (with_posts sample_db (Post_objects sample_db ++ [p]),
       HttpResponseRedirect (url_profile "bob"))
    /\ post_is_published p = false
    /\ PostDetailView_get_object sample_now
         (with_posts sample_db (Post_objects sample_db ++ [p]))
         (sample_request (LoggedIn bob) GET (sample_kwargs 3 0 "" ""))
       = Ok p.
Proof.
  destruct (create_post_round_trip sample_now sample_db
              (sample_request (LoggedIn bob) POST (sample_kwargs 0 0 "" ""))
              bob unpublished_post_form sample_db_keys_unique eq_refl
              (or_introl eq_refl) eq_refl)
    as [p [Hview [_ [_ [_ [_ [_ [_ [_ [Hpub Hdetail]]]]]]]]]].
  exists p. split; [exact Hview|]. split; [exact Hpub|].
  apply Hdetail; [reflexivity|].
  injection Hview as Hposts. rewrite <- Hposts. reflexivity.
Defined.

Lemma views_keep_keys_unique_witness :
  keys_unique
    (fst (CreatePostView sample_db
            (sample_request (LoggedIn bob) POST (sample_kwargs 0 0 "" ""))
            forged_post_form))
  /\ keys_unique
       (fst (@DeleteCommentView comment_mixin_by_pk sample_db
               (sample_request (LoggedIn alice) POST
                  (sample_kwargs 2 2 "" "")))).
Proof.
  split.
  - exact (@views_keep_keys_unique sample_now comment_mixin_by_pk sample_db
             (sample_request (LoggedIn bob) POST (sample_kwargs 0 0 "" ""))
             (CreatePost forged_post_form) sample_db_all_keys_unique).
  - exact (@views_keep_keys_unique sample_now comment_mixin_by_pk sample_db
             (sample_request (LoggedIn alice) POST (sample_kwargs 2 2 "" ""))
             (Mutate DeleteComment) sample_db_all_keys_unique).
Defined.

(** Bob comments on [essay]: the comment is the third on that post. *)
Lemma add_comment_attaches_to_post_witness :
  exists c,
    AddCommentView sample_now sample_db
      (sample_request (LoggedIn bob) POST (sample_kwargs 2 0 "" ""))
      forged_comment_form
    = (with_comments sample_db (Comment_objects sample_db ++ [c]),
       HttpResponseRedirect (url_post_detail 2))
    /\ comment_post c = 2
    /\ post_comments
         (with_comments sample_db (Comment_objects sample_db ++ [c])) essay
       = [withheld; reply; c].
Proof.
  destruct (add_comment_attaches_to_post sample_now sample_db
              (sample_request (LoggedIn bob) POST (sample_kwargs 2 0 "" ""))
              bob forged_comment_form essay sample_db_keys_unique
              (or_intror (or_introl eq_refl)) eq_refl eq_refl
              (or_introl eq_refl) eq_refl)
    as [c [Hview [Hpost [_ [_ [Hcomments _]]]]]].
  exists c. split; [exact Hview|]. split; [exact Hpost|exact Hcomments].
Defined.

(** Alice and Bob see different post lists on Alice's profile and the
    same comment count. *)
Lemma profile_comment_count_same_for_all_witness :
  exists object_list1 object_list2,
    ProfileView sample_now true sample_db
      (sample_request (LoggedIn alice) GET (sample_kwargs 0 0 "" "alice"))
    = TemplateResponse "blog/profile.html"
        (profile_context object_list1 alice (Some 1))
    /\ ProfileView sample_now true sample_db
         (sample_request (LoggedIn bob) GET (sample_kwargs 0 0 "" "alice"))
       = TemplateResponse "blog/profile.html"
           (profile_context object_list2 alice (Some 1))
    /\ object_list1 <> object_list2
    /\ (alice = alice /\ Some 1 = Some 1).
Proof.
  eexists. eexists.
  split; [reflexivity|]. split; [reflexivity|]. split; [discriminate|].
  exact (profile_comment_count_same_for_all sample_now true sample_db
           (sample_request (LoggedIn alice) GET (sample_kwargs 0 0 "" "alice"))
           (sample_request (LoggedIn bob) GET (sample_kwargs 0 0 "" "alice"))
           _ _ _ _ alice alice (Some 1) (Some 1) eq_refl eq_refl eq_refl).
Defined.

(** The twelfth post of Bob is on a page of his profile. *)
Lemma own_post_on_some_profile_page_witness :
  exists n object_list total,
    ProfileView sample_now true long_db
      (with_page
         (sample_request (LoggedIn bob) GET (sample_kwargs 0 0 "" "bob")) n)
    = TemplateResponse "blog/profile.html"
        (profile_context object_list bob total)
    /\ In (bobs_post 12) (map row_post object_list).
Proof.
  apply (own_post_on_some_profile_page sample_now true long_db
           (sample_request (LoggedIn bob) GET (sample_kwargs 0 0 "" "bob"))
           bob (bobs_post 12) long_db_usernames_unique);
    try reflexivity.
  - right. now left.
  - simpl. intuition.
Defined.

(** Bob renames himself: he is sent to the profile of the new name, his
    row keeps its key, and Alice's row stays. *)
Lemma edit_profile_own_row_only_witness :
  EditProfileView sample_db
    (sample_request (LoggedIn bob) POST (sample_kwargs 0 0 "" ""))
    rename_form
  = (User_save sample_db {| user_pk := 2; username := "robert" |},
     HttpResponseRedirect (url_profile "robert"))
  /\ In alice
       (User_objects
          (fst (EditProfileView sample_db
                  (sample_request (LoggedIn bob) POST
                     (sample_kwargs 0 0 "" ""))
                  rename_form))).
Proof.
  destruct (edit_profile_own_row_only sample_db
              (sample_request (LoggedIn bob) POST (sample_kwargs 0 0 "" ""))
              rename_form)
    as [_ [_ [Hothers Hown]]].
  split.
  - exact (proj1 (Hown bob eq_refl (or_introl eq_refl) eq_refl)).
  - apply Hothers; [now left | reflexivity].
Defined.

Lemma listing_pages_hold_ten_witness :
  exists object_list,
    CategoryPostListView sample_now long_db
      (sample_request AnonymousUser GET (sample_kwargs 0 0 "travel" ""))
    = TemplateResponse "blog/category.html"
        (category_context object_list travel)
    /\ List.length (Post_objects long_db) = 12
    /\ List.length object_list <= 10.
Proof.
  eexists. split; [reflexivity|]. split; [reflexivity|].
  exact (proj1 (proj1 (listing_pages_hold_ten sample_now true long_db
                         (sample_request AnonymousUser GET
                            (sample_kwargs 0 0 "travel" ""))
                         _ _) travel eq_refl)).
Defined.
